(** * Android application modules of Soong (java/app.go)

    A shallow embedding of [java/app.go]: the dependency mutator of an
    [android_app] module, the assembly of its aapt flags, and the generation
    of its build actions, together with the properties of the flag sequence,
    of the certificate list and of the resource gating that the design
    document of the module states.

    Go values are modelled as the code has them.  A [string] is a sequence of
    bytes.  A [[]string] that the code appends to is a slice header (pointer,
    offset, length, capacity) into a store of backing arrays, so that the
    sharing between [a.appProperties.Aaptflags], the flags under construction
    and the per-invocation copies is the sharing of the program.  A run-time
    panic is an error result. *)

From Stdlib Require Import String Ascii List Arith Lia Bool.
From stdpp Require Import base tactics option list strings.

Open Scope string_scope.
Open Scope list_scope.

(** ** Go strings *)

Module strings.

(** [strings.HasPrefix(s, prefix)] *)
Definition HasPrefix (s prefix : string) : bool := String.prefix prefix s.

(** [strings.ContainsRune(s, c)] for a one-byte rune: used to say what a
    path "with a directory separator" is. *)
Fixpoint Contains_byte (c : ascii) (s : string) : bool :=
  match s with
  | EmptyString => false
  | String b s' => if Ascii.eqb b c then true else Contains_byte c s'
  end.

End strings.

Module filepath.

Definition Separator : ascii := "/"%char.

(** [filepath.Split] on Unix: the path is cut after its final separator;
    [split_acc pending path] holds in [pending] the bytes read since the
    last separator, and moves them to the directory part when another
    separator follows. *)
Fixpoint split_acc (pending : string) (path : string) : string * string :=
  match path with
  | EmptyString => (EmptyString, pending)
  | String b rest =>
      if Ascii.eqb b Separator then
        let '(dir, file) := split_acc EmptyString rest in
        (pending +:+ String b dir, file)
      else split_acc (pending +:+ String b EmptyString) rest
  end.

Definition Split (path : string) : string * string :=
  split_acc EmptyString path.

End filepath.

(** ** Go slices of strings over a store of backing arrays *)

Module goslice.

(** A backing array is the list of its cells; the store maps an array
    identity [p] to the array allocated [p]-th. *)
Abbreviation store := (list (list string)).

(** The slice header: [ptr = None] is the nil pointer of a nil slice. *)
Record slice : Type := Slice {
  ptr : option nat;
  off : nat;
  len : nat;
  cap : nat
}.

Definition nil : slice := Slice None 0 0 0.

(** The elements [s[0]], ..., [s[len(s)-1]]. *)
Definition view (h : store) (s : slice) : list string :=
  match ptr s with
  | None => []
  | Some p =>
      match h !! p with
      | Some arr => take (len s) (drop (off s) arr)
      | None => []
      end
  end.

(** Writing [xs] into an array from cell [i] on. *)
Definition store_at (i : nat) (xs arr : list string) : list string :=
  take i arr ++ xs ++ drop (i + length xs) arr.

(** [append(s, xs...)]: when the capacity suffices the new elements are
    written in place behind the slice, into the array the slice shares
    with whoever else points into it; otherwise a fresh array is
    allocated, whose capacity exceeds the need by [slack], the growth
    policy of the run-time system. *)
Definition append (slack : nat -> nat -> nat)
    (s : slice) (xs : list string) (h : store) : slice * store :=
  let n := len s + length xs in
  if (n <=? cap s)%nat then
    match ptr s with
    | Some p =>
        match h !! p with
        | Some arr =>
            (Slice (Some p) (off s) n (cap s),
             <[p := store_at (off s + len s) xs arr]> h)
        | None => (s, h)
        end
    | None => (s, h)
    end
  else
    let c := n + slack (cap s) n in
    (Slice (Some (length h)) 0 n c,
     h ++ [view h s ++ xs ++ replicate (c - n) ""]).

(** A header is well formed in a store when it stays within an allocated
    array. *)
Definition wf (h : store) (s : slice) : Prop :=
  len s <= cap s /\
  match ptr s with
  | None => cap s = 0
  | Some p => exists arr, h !! p = Some arr /\ off s + cap s <= length arr
  end.

(** [guards s t]: appending to [s] in place cannot reach a cell that [t]
    shows, since [t] ends no later than [s] does whenever they share an
    array. *)
Definition guards (s t : slice) : Prop :=
  forall p, ptr s = Some p -> ptr t = Some p ->
            off t + len t <= off s + len s.

End goslice.

Export goslice(slice, Slice, ptr, off, len, cap).

(** ** Relations between stores *)

(** What one [append] does: the result shows the old elements followed by
    the new ones, the store only grows, the result points into the array of
    the appended slice or into a new one, and every slice that the appended
    one guards is left as it was and is guarded by the result. *)
Definition grows (h : list (list string)) (s : slice)
    (h' : list (list string)) (s' : slice) (xs : list string) : Prop :=
  goslice.wf h' s' /\
  goslice.view h' s' = goslice.view h s ++ xs /\
  length h <= length h' /\
  (forall p, ptr s' = Some p -> ptr s = Some p \/ length h <= p) /\
  forall t, goslice.wf h t -> goslice.guards s t ->
            goslice.wf h' t /\ goslice.view h' t = goslice.view h t /\
            goslice.guards s' t.

(** Every slice of the older store is still there, showing what it
    showed. *)
Definition frame (h h' : list (list string)) : Prop :=
  length h <= length h' /\
  forall t, goslice.wf h t ->
            goslice.wf h' t /\ goslice.view h' t = goslice.view h t.

(** [fresh h c]: the array of [c], if any, was allocated after store [h]. *)
Definition fresh (h : list (list string)) (c : slice) : Prop :=
  forall p, ptr c = Some p -> length h <= p.

(** [apart s t]: the two slices point into different arrays. *)
Definition apart (s t : slice) : Prop :=
  forall p, ptr s = Some p -> ptr t <> Some p.

(** The copies [cs] share no array with one another, nor with the slices
    [olds]. *)
Definition own_arrays (olds cs : list slice) : Prop :=
  Forall (fun c => Forall (apart c) olds) cs /\
  ForallOrdPairs apart cs.

(** ** Paths, properties and modules *)

(** An [android.Path] that is not nil; its [String()] is all the code reads. *)
Record Path : Type := PathOf { Path_String : string }.

(** [Paths.Strings()] *)
Definition Paths_Strings (ps : list Path) : list string := map Path_String ps.

Record androidAppProperties : Type := {
  Certificate : string;
  Additional_certificates : list string;
  Export_package_resources : bool;
  Aaptflags : slice;
  Package_splits : list string;
  Asset_dirs : list string;
  Android_resource_dirs : list string
}.

(** The fields of the embedded [java.Module] that [app.go] reads or writes.
    [Manifest] is a [*string] and [outputFile] an [android.Path]: both may
    be nil. *)
Record compilerProperties : Type := {
  No_standard_libraries : bool;
  Manifest : option string
}.

Record compilerDeviceProperties : Type := {
  Sdk_version : string;
  Dex : bool
}.

Record Module : Type := {
  properties : compilerProperties;
  deviceProperties : compilerDeviceProperties;
  ExtraSrcLists : list Path;
  outputFile : option Path
}.

Record AndroidApp : Type := {
  Module_ : Module;
  appProperties : androidAppProperties;
  aaptJavaFileList : option Path;
  exportPackage : option Path
}.

Definition set_Manifest (v : option string) (m : Module) : Module :=
  {| properties := {| No_standard_libraries := No_standard_libraries (properties m);
                      Manifest := v |};
     deviceProperties := deviceProperties m;
     ExtraSrcLists := ExtraSrcLists m;
     outputFile := outputFile m |}.

Definition set_ExtraSrcLists (v : list Path) (m : Module) : Module :=
  {| properties := properties m;
     deviceProperties := deviceProperties m;
     ExtraSrcLists := v;
     outputFile := outputFile m |}.

Definition set_outputFile (v : option Path) (m : Module) : Module :=
  {| properties := properties m;
     deviceProperties := deviceProperties m;
     ExtraSrcLists := ExtraSrcLists m;
     outputFile := v |}.

Definition set_Module (m : Module) (a : AndroidApp) : AndroidApp :=
  {| Module_ := m;
     appProperties := appProperties a;
     aaptJavaFileList := aaptJavaFileList a;
     exportPackage := exportPackage a |}.

Definition set_aaptJavaFileList (v : option Path) (a : AndroidApp) : AndroidApp :=
  {| Module_ := Module_ a;
     appProperties := appProperties a;
     aaptJavaFileList := v;
     exportPackage := exportPackage a |}.

Definition set_exportPackage (v : option Path) (a : AndroidApp) : AndroidApp :=
  {| Module_ := Module_ a;
     appProperties := appProperties a;
     aaptJavaFileList := aaptJavaFileList a;
     exportPackage := v |}.

(** The module with its [Export_package_resources] property set to [v]. *)
Definition set_Export_package_resources (v : bool) (a : AndroidApp) : AndroidApp :=
  {| Module_ := Module_ a;
     appProperties :=
       {| Certificate := Certificate (appProperties a);
          Additional_certificates := Additional_certificates (appProperties a);
          Export_package_resources := v;
          Aaptflags := Aaptflags (appProperties a);
          Package_splits := Package_splits (appProperties a);
          Asset_dirs := Asset_dirs (appProperties a);
          Android_resource_dirs := Android_resource_dirs (appProperties a) |};
     aaptJavaFileList := aaptJavaFileList a;
     exportPackage := exportPackage a |}.

(** A direct dependency as the visitor of [aaptFlags] inspects it: the
    interfaces its type implements and, when its dynamic type is
    [*AndroidApp], the application itself. *)
Record blueprint_Module : Type := {
  OtherModuleName : string;
  as_sdkDependency : option (list Path);   (* [ClasspathFiles()] when implemented *)
  is_Dependency : bool;
  as_AndroidApp : option AndroidApp
}.

(** ** The contexts *)

Record Config : Type := {
  ProductAaptCharacteristics : string;
  DefaultAppCertificate : Path;
  DefaultAppCertificateDir : Path;
  ResourceOverlays : list Path;
  PlatformSdkVersion : string;
  PlatformVersion : string;
  BuildNumber : string
}.

(** [android.ModuleContext]: the configuration, the glob of the file system,
    the direct dependencies in the order [VisitDirectDeps] visits them. *)
Record ModuleContext : Type := {
  AConfig : Config;
  Glob : string -> list string -> list Path;
  DirectDeps : list blueprint_Module;
  ModuleName : string
}.

Record dependencyTag : Type := { tag_name : string }.

(** [android.BottomUpMutatorContext]: the dependencies added so far, as
    (tag, name) edges from the module under mutation. *)
Record BottomUpMutatorContext : Type := {
  added : list (dependencyTag * string)
}.

Definition AddDependency (ctx : BottomUpMutatorContext)
    (tag : dependencyTag) (names : list string) : BottomUpMutatorContext :=
  {| added := added ctx ++ map (pair tag) names |}.

(** ** Build actions and the evaluation monad *)

(** What the module hands to the rule builders of [app_builder.go] and to
    the context.  A flag argument is recorded as the header that was passed
    and as the elements the builder read through it at the call. *)
Inductive BuildAction : Type :=
| ResourceJavaFiles (flags : slice) (args : list string) (deps : list Path)
| ExportPackage (flags : slice) (args : list string) (deps : list Path)
| Compile (m : Module)
| AppPackage (flags : slice) (args : list string)
             (jarFile : option Path) (certificates : list string)
| CheckbuildFile (p : Path)
| InstallFileName (dir : Path) (name : string) (src : Path).

Record state : Type := State {
  heap : list (list string);
  actions : list BuildAction
}.

(** Evaluation threads the store and the emitted actions; [None] is a
    panic. *)
Definition M (A : Type) : Type := state -> option (A * state).

#[global] Instance M_ret : MRet M := fun A a st => Some (a, st).

#[global] Instance M_bind : MBind M := fun A B f m st =>
  match m st with
  | Some (a, st') => f a st'
  | None => None
  end.

Definition panic {A : Type} : M A := fun _ => None.

Definition or_panic {A : Type} (o : option A) : M A :=
  match o with
  | Some a => mret a
  | None => panic
  end.

Definition read (s : slice) : M (list string) :=
  fun st => Some (goslice.view (heap st) s, st).

Definition emit (b : BuildAction) : M unit :=
  fun st => Some (tt, State (heap st) (actions st ++ [b])).

(** [for _, x := range xs { acc = body(acc, x) }] *)
Fixpoint for_range {A B : Type} (body : B -> A -> M B) (xs : list A) (acc : B) : M B :=
  match xs with
  | [] => mret acc
  | x :: xs' => acc' ← body acc x; for_range body xs' acc'
  end.

(** [wp m Q st]: from [st] the computation [m] does not panic, and its
    result and final state satisfy [Q]. *)
Definition wp {A : Type} (m : M A) (Q : A -> state -> Prop) (st : state) : Prop :=
  exists a st', m st = Some (a, st') /\ Q a st'.

(** ** What lies outside [app.go] *)

(** The Go run-time system: by how much a reallocating [append] exceeds the
    capacity it needs, given the old capacity and the need. *)
Class GoRuntime : Type := {
  growslice_slack : nat -> nat -> nat
}.

(** [path/filepath] of the Go library. *)
Class GoFilepath : Type := {
  filepath_Join : list string -> string
}.

(** Package [android]: the path constructors, which consult the source
    tree. *)
Class AndroidPaths : Type := {
  PathForSource : ModuleContext -> Path;
  PathForModuleSrc : ModuleContext -> string -> Path;
  PathsWithOptionalDefaultForModuleSrc :
    ModuleContext -> list string -> string -> list Path;
  OverlayPath : Path -> ModuleContext -> Path -> option Path;
  PathForModuleInstall : ModuleContext -> string -> Path
}.

(** Package [java] outside [app.go]: the mutator and the compilation of the
    embedded module, the dependency tag of the platform resources, and the
    outputs that the rule builders of [app_builder.go] return. *)
Class JavaPackage : Type := {
  Module_deps : Module -> BottomUpMutatorContext -> BottomUpMutatorContext;
  Module_compile : ModuleContext -> Module -> Module;
  frameworkResTag : dependencyTag;
  resourceJavaFiles_outputs : ModuleContext -> Path * Path * Path;
  exportPackage_output : ModuleContext -> Path;
  appPackage_output : ModuleContext -> Path
}.

(** Modelled from the spec: [android.JoinWithPrefix] is defined in package
    [android], outside this file.  Its call sites append its result as one
    element, so it returns one string; following "one [-A <dir>] per resolved
    asset directory, one [-S <dir>] per resolved resource directory,
    preserving resolved order", that string holds [prefix] followed by each
    element, in order, the groups separated by a space. *)
Fixpoint JoinWithPrefix (strs : list string) (prefix : string) : string :=
  match strs with
  | [] => ""
  | s :: rest =>
      match rest with
      | [] => prefix +:+ s
      | _ :: _ => prefix +:+ s +:+ " " +:+ JoinWithPrefix rest prefix
      end
  end.

(** ** java/app.go *)

Section app_go.

Context `{!GoRuntime, !GoFilepath, !AndroidPaths, !JavaPackage}.

(** The built-in [append]. *)
Definition append (s : slice) (xs : list string) : M slice :=
  fun st =>
    let '(s', h') := goslice.append growslice_slack s xs (heap st) in
    Some (s', State h' (actions st)).

(** The rule builders of [app_builder.go] read their flags and register a
    rule; they return the paths of its outputs. *)
Definition CreateResourceJavaFiles (ctx : ModuleContext)
    (flags : slice) (deps : list Path) : M (Path * Path * Path) :=
  args ← read flags;
  _ ← emit (ResourceJavaFiles flags args deps);
  mret (resourceJavaFiles_outputs ctx).

Definition CreateExportPackage (ctx : ModuleContext)
    (flags : slice) (deps : list Path) : M Path :=
  args ← read flags;
  _ ← emit (ExportPackage flags args deps);
  mret (exportPackage_output ctx).

Definition CreateAppPackage (ctx : ModuleContext) (flags : slice)
    (jarFile : option Path) (certificates : list string) : M Path :=
  args ← read flags;
  _ ← emit (AppPackage flags args jarFile certificates);
  mret (appPackage_output ctx).

(** [func (a *AndroidApp) DepsMutator(ctx android.BottomUpMutatorContext)] *)
Definition DepsMutator (a : AndroidApp) (ctx : BottomUpMutatorContext)
    : BottomUpMutatorContext :=
  let ctx := Module_deps (Module_ a) ctx in
  if negb (No_standard_libraries (properties (Module_ a))) then
    let v := Sdk_version (deviceProperties (Module_ a)) in
    if String.eqb v "current" || String.eqb v "system_current" || String.eqb v ""
    then AddDependency ctx frameworkResTag ["framework-res"]
    else ctx
  else ctx.

Definition aaptIgnoreFilenames : list string :=
  [".svn"; ".git"; ".ds_store"; "*.scc"; ".*"; "CVS"; "thumbs.db";
   "picasa.ini"; "*~"].

(** The first loop of [aaptFlags]: one pass over the flags, the second
    test being tried only where the first fails. *)
Definition scan_version (fs : list string) : bool * bool :=
  fold_left
    (fun '(hasVersionCode, hasVersionName) f =>
       if strings.HasPrefix f "--version-code" then (true, hasVersionName)
       else if strings.HasPrefix f "--version-name" then (hasVersionCode, true)
       else (hasVersionCode, hasVersionName))
    fs (false, false).

(** The overlay loops: for every overlay root, for every resource
    directory, the overlay of that directory when it is valid. *)
Definition overlay_scan (ctx : ModuleContext) (resourceDirs : list Path)
    : list Path :=
  fold_left
    (fun overlayResourceDirs overlayDir =>
       fold_left
         (fun overlayResourceDirs resourceDir =>
            match OverlayPath overlayDir ctx resourceDir with
            | Some overlay => overlayResourceDirs ++ [overlay]
            | None => overlayResourceDirs
            end)
         resourceDirs overlayResourceDirs)
    (ResourceOverlays (AConfig ctx)) [].

Definition glob_dir (ctx : ModuleContext) (d : Path) : list Path :=
  Glob ctx (filepath_Join [Path_String d; "**/*"]) aaptIgnoreFilenames.

(** The loop over the resource directories. *)
Definition glob_resourceDirs (ctx : ModuleContext) (resourceDirs : list Path)
    : list Path * bool :=
  fold_left
    (fun '(aaptDeps, hasResources) d =>
       let newDeps := glob_dir ctx d in
       (aaptDeps ++ newDeps,
        if (0 <? length newDeps)%nat then true else hasResources))
    resourceDirs ([], false).

(** The loop over the asset directories. *)
Definition glob_assetDirs (ctx : ModuleContext) (assetDirs : list Path)
    (aaptDeps : list Path) : list Path :=
  fold_left (fun aaptDeps d => aaptDeps ++ glob_dir ctx d) assetDirs aaptDeps.

(** The files a direct dependency contributes ([None] is a panic).  A
    module named [framework-res] is asserted to be an [*AndroidApp]; its
    export package is a path that may be nil, and the loop that follows
    calls [String()] on it, so either failure panics before anything else
    is done. *)
Definition depFiles_of (module : blueprint_Module) : option (list Path) :=
  match as_sdkDependency module with
  | Some files => Some files
  | None =>
      if is_Dependency module then
        if String.eqb (OtherModuleName module) "framework-res" then
          match as_AndroidApp module with
          | Some app =>
              match exportPackage app with
              | Some p => Some [p]
              | None => None
              end
          | None => None
          end
        else Some []
      else Some []
  end.

(** The function literal passed to [ctx.VisitDirectDeps]. *)
Definition visit_dep (acc : slice * list Path) (module : blueprint_Module)
    : M (slice * list Path) :=
  let '(aaptFlags, aaptDeps) := acc in
  depFiles ← or_panic (depFiles_of module);
  aaptFlags ← for_range
    (fun aaptFlags dep => append aaptFlags ["-I " +:+ Path_String dep])
    depFiles aaptFlags;
  mret (aaptFlags, aaptDeps ++ depFiles).

(** The resolved directories of [aaptFlags]. *)
Definition assetDirs_of (ctx : ModuleContext) (a : AndroidApp) : list Path :=
  PathsWithOptionalDefaultForModuleSrc ctx (Asset_dirs (appProperties a)) "assets".

Definition resourceDirs_of (ctx : ModuleContext) (a : AndroidApp) : list Path :=
  let resourceDirs :=
    PathsWithOptionalDefaultForModuleSrc ctx
      (Android_resource_dirs (appProperties a)) "res" in
  let overlayResourceDirs := overlay_scan ctx resourceDirs in
  if (0 <? length overlayResourceDirs)%nat
  then overlayResourceDirs ++ resourceDirs
  else resourceDirs.

Definition manifestPath_of (ctx : ModuleContext) (a : AndroidApp) : Path :=
  let manifestFile :=
    match Manifest (properties (Module_ a)) with
    | None => "AndroidManifest.xml"
    | Some m => m
    end in
  PathForModuleSrc ctx manifestFile.

(** [func (a *AndroidApp) aaptFlags(ctx android.ModuleContext)
      ([]string, android.Paths, bool)] *)
Definition aaptFlags (ctx : ModuleContext) (a : AndroidApp)
    : M (slice * list Path * bool) :=
  let aaptFlags := Aaptflags (appProperties a) in
  fs ← read aaptFlags;
  let '(hasVersionCode, hasVersionName) := scan_version fs in
  aaptFlags ← append aaptFlags ["-z"];
  let assetDirs := assetDirs_of ctx a in
  let resourceDirs := resourceDirs_of ctx a in
  let '(aaptDeps, hasResources) := glob_resourceDirs ctx resourceDirs in
  let aaptDeps := glob_assetDirs ctx assetDirs aaptDeps in
  let manifestPath := manifestPath_of ctx a in
  let aaptDeps := aaptDeps ++ [manifestPath] in
  aaptFlags ← append aaptFlags ["-M " +:+ Path_String manifestPath];
  aaptFlags ← append aaptFlags [JoinWithPrefix (Paths_Strings assetDirs) "-A "];
  aaptFlags ← append aaptFlags [JoinWithPrefix (Paths_Strings resourceDirs) "-S "];
  '(aaptFlags, aaptDeps) ← for_range visit_dep (DirectDeps ctx) (aaptFlags, aaptDeps);
  let sdkVersion :=
    if String.eqb (Sdk_version (deviceProperties (Module_ a))) ""
    then PlatformSdkVersion (AConfig ctx)
    else Sdk_version (deviceProperties (Module_ a)) in
  aaptFlags ← append aaptFlags ["--min-sdk-version " +:+ sdkVersion];
  aaptFlags ← append aaptFlags ["--target-sdk-version " +:+ sdkVersion];
  aaptFlags ←
    (if negb hasVersionCode
     then append aaptFlags ["--version-code " +:+ PlatformSdkVersion (AConfig ctx)]
     else mret aaptFlags);
  aaptFlags ←
    (if negb hasVersionName
     then append aaptFlags
            ["--version-name " +:+ PlatformVersion (AConfig ctx) +:+ "-"
               +:+ BuildNumber (AConfig ctx)]
     else mret aaptFlags);
  mret (aaptFlags, aaptDeps, hasResources).

(** The loop that looks for an explicit [--product], left at the first
    hit. *)
Fixpoint scan_product (fs : list string) : bool :=
  match fs with
  | [] => false
  | f :: fs' => if strings.HasPrefix f "--product" then true else scan_product fs'
  end.

(** A copy of the flags ([append([]string(nil), aaptFlags...)]), extended
    by the product characteristics unless a flag names a product.
    [GenerateAndroidBuildActions] has these lines twice, before the export
    package and before the application package. *)
Definition product_flags (ctx : ModuleContext) (aaptFlags : slice) : M slice :=
  fs ← read aaptFlags;
  aaptPackageFlags ← append goslice.nil fs;
  fs' ← read aaptPackageFlags;
  let hasProduct := scan_product fs' in
  if negb hasProduct
  then append aaptPackageFlags
         ["--product " +:+ ProductAaptCharacteristics (AConfig ctx)]
  else mret aaptPackageFlags.

(** The certificates of the application package. *)
Definition certificates_of (ctx : ModuleContext) (a : AndroidApp) : list string :=
  let certificate := Certificate (appProperties a) in
  let certificate :=
    if String.eqb certificate "" then
      Path_String (DefaultAppCertificate (AConfig ctx))
    else if String.eqb (fst (filepath.Split certificate)) "" then
      filepath_Join [Path_String (DefaultAppCertificateDir (AConfig ctx)); certificate]
    else
      filepath_Join [Path_String (PathForSource ctx); certificate] in
  fold_left
    (fun certificates c =>
       certificates ++ [filepath_Join [Path_String (PathForSource ctx); c]])
    (Additional_certificates (appProperties a)) [certificate].

(** [func (a *AndroidApp) GenerateAndroidBuildActions(ctx android.ModuleContext)]:
    the module after the call is the result. *)
Definition GenerateAndroidBuildActions (ctx : ModuleContext) (a : AndroidApp)
    : M AndroidApp :=
  '(aaptFlags, aaptDeps, hasResources) ← aaptFlags ctx a;
  a ←
    (if hasResources : bool then
       fs ← read aaptFlags;
       aaptRJavaFlags ← append goslice.nil fs;
       '(publicResourcesFile, proguardOptionsFile, aaptJavaFileList) ←
         CreateResourceJavaFiles ctx aaptRJavaFlags aaptDeps;
       let a := set_aaptJavaFileList (Some aaptJavaFileList) a in
       let a := set_Module
                  (set_ExtraSrcLists
                     (ExtraSrcLists (Module_ a) ++ [aaptJavaFileList]) (Module_ a)) a in
       a ←
         (if Export_package_resources (appProperties a) then
            aaptPackageFlags ← product_flags ctx aaptFlags;
            p ← CreateExportPackage ctx aaptPackageFlags aaptDeps;
            let a := set_exportPackage (Some p) a in
            _ ← emit (CheckbuildFile p);
            mret a
          else mret a);
       _ ← emit (CheckbuildFile publicResourcesFile);
       _ ← emit (CheckbuildFile proguardOptionsFile);
       _ ← emit (CheckbuildFile aaptJavaFileList);
       mret a
     else mret a);
  let a := set_Module (set_Manifest None (Module_ a)) a in
  let a := set_Module (Module_compile ctx (Module_ a)) a in
  _ ← emit (Compile (Module_ a));
  aaptPackageFlags ← product_flags ctx aaptFlags;
  let certificates := certificates_of ctx a in
  p ← CreateAppPackage ctx aaptPackageFlags (outputFile (Module_ a)) certificates;
  let a := set_Module (set_outputFile (Some p) (Module_ a)) a in
  _ ← emit (InstallFileName (PathForModuleInstall ctx "app")
              (ModuleName ctx +:+ ".apk") p);
  mret a.

End app_go.

(** [func AndroidAppFactory() android.Module]: the zero module with [Dex]
    set; registering its property structs is left to the framework. *)
Definition AndroidAppFactory : AndroidApp :=
  {| Module_ :=
       {| properties := {| No_standard_libraries := false; Manifest := None |};
          deviceProperties := {| Sdk_version := EmptyString; Dex := true |};
          ExtraSrcLists := [];
          outputFile := None |};
     appProperties :=
       {| Certificate := EmptyString;
          Additional_certificates := [];
          Export_package_resources := false;
          Aaptflags := goslice.nil;
          Package_splits := [];
          Asset_dirs := [];
          Android_resource_dirs := [] |};
     aaptJavaFileList := None;
     exportPackage := None |}.

(** ** The results as values, and the design's own definitions *)

Section app_go_values.

Context `{!GoRuntime, !GoFilepath, !AndroidPaths, !JavaPackage}.

(** No direct dependency makes the visitor panic. *)
Definition deps_ok (ctx : ModuleContext) : Prop :=
  Forall (fun module => is_Some (depFiles_of module)) (DirectDeps ctx).

Definition dep_files (pre : list blueprint_Module) : list Path :=
  flat_map (fun module => default [] (depFiles_of module)) pre.

Definition dep_flags (pre : list blueprint_Module) : list string :=
  map (fun dep => "-I " +:+ Path_String dep) (dep_files pre).

Definition sdkVersion_of (ctx : ModuleContext) (a : AndroidApp) : string :=
  if String.eqb (Sdk_version (deviceProperties (Module_ a))) ""
  then PlatformSdkVersion (AConfig ctx)
  else Sdk_version (deviceProperties (Module_ a)).

(** The elements that [aaptFlags] appends to the configured flags
    [explicit], in order. *)
Definition computed_flags (ctx : ModuleContext) (a : AndroidApp)
    (explicit : list string) : list string :=
  ["-z";
   "-M " +:+ Path_String (manifestPath_of ctx a);
   JoinWithPrefix (Paths_Strings (assetDirs_of ctx a)) "-A ";
   JoinWithPrefix (Paths_Strings (resourceDirs_of ctx a)) "-S "]
  ++ dep_flags (DirectDeps ctx)
  ++ ["--min-sdk-version " +:+ sdkVersion_of ctx a;
      "--target-sdk-version " +:+ sdkVersion_of ctx a]
  ++ (if fst (scan_version explicit) then []
      else ["--version-code " +:+ PlatformSdkVersion (AConfig ctx)])
  ++ (if snd (scan_version explicit) then []
      else ["--version-name " +:+ PlatformVersion (AConfig ctx) +:+ "-"
              +:+ BuildNumber (AConfig ctx)]).

Definition aaptDeps_of (ctx : ModuleContext) (a : AndroidApp) : list Path :=
  glob_assetDirs ctx (assetDirs_of ctx a)
    (fst (glob_resourceDirs ctx (resourceDirs_of ctx a)))
  ++ [manifestPath_of ctx a] ++ dep_files (DirectDeps ctx).

Definition hasResources_of (ctx : ModuleContext) (a : AndroidApp) : bool :=
  snd (glob_resourceDirs ctx (resourceDirs_of ctx a)).

(** What the copy made by [product_flags] shows, for flags showing [fs]. *)
Definition with_product (ctx : ModuleContext) (fs : list string) : list string :=
  if scan_product fs then fs
  else fs ++ ["--product " +:+ ProductAaptCharacteristics (AConfig ctx)].

(** The module once the resource stage is over. *)
Definition module_after_resources (ctx : ModuleContext) (a : AndroidApp)
    : AndroidApp :=
  if hasResources_of ctx a then
    let aaptJavaFileList := snd (resourceJavaFiles_outputs ctx) in
    let a := set_aaptJavaFileList (Some aaptJavaFileList) a in
    let a := set_Module
               (set_ExtraSrcLists
                  (ExtraSrcLists (Module_ a) ++ [aaptJavaFileList]) (Module_ a)) a in
    if Export_package_resources (appProperties a)
    then set_exportPackage (Some (exportPackage_output ctx)) a
    else a
  else a.

Definition compiled_Module (ctx : ModuleContext) (a : AndroidApp) : Module :=
  Module_compile ctx (set_Manifest None (Module_ (module_after_resources ctx a))).

(** The module when [GenerateAndroidBuildActions] returns. *)
Definition final_module (ctx : ModuleContext) (a : AndroidApp) : AndroidApp :=
  set_Module
    (set_outputFile (Some (appPackage_output ctx)) (compiled_Module ctx a))
    (module_after_resources ctx a).

(** The actions of the resource stage, for flags showing [args]; [c1] and
    [c2] are the copies handed to the two rule builders. *)
Definition resource_actions (ctx : ModuleContext) (a : AndroidApp)
    (args : list string) (c1 c2 : slice) : list BuildAction :=
  if hasResources_of ctx a then
    [ResourceJavaFiles c1 args (aaptDeps_of ctx a)]
    ++ (if Export_package_resources (appProperties a)
        then [ExportPackage c2 (with_product ctx args) (aaptDeps_of ctx a);
              CheckbuildFile (exportPackage_output ctx)]
        else [])
    ++ [CheckbuildFile (fst (fst (resourceJavaFiles_outputs ctx)));
        CheckbuildFile (snd (fst (resourceJavaFiles_outputs ctx)));
        CheckbuildFile (snd (resourceJavaFiles_outputs ctx))]
  else [].

(** The actions of the package stage. *)
Definition package_actions (ctx : ModuleContext) (a : AndroidApp)
    (args : list string) (c3 : slice) : list BuildAction :=
  [Compile (compiled_Module ctx a);
   AppPackage c3 (with_product ctx args) (outputFile (compiled_Module ctx a))
              (certificates_of ctx a);
   InstallFileName (PathForModuleInstall ctx "app") (ModuleName ctx +:+ ".apk")
                   (appPackage_output ctx)].

(** The flags an action was given still show, in store [h], what the rule
    builder read. *)
Definition flags_intact (h : list (list string)) (b : BuildAction) : Prop :=
  match b with
  | ResourceJavaFiles flags args _
  | ExportPackage flags args _
  | AppPackage flags args _ _ =>
      goslice.wf h flags /\ goslice.view h flags = args
  | _ => True
  end.

(** Some flag of [fs] starts with [opt]. *)
Definition has_option (opt : string) (fs : list string) : bool :=
  existsb (fun f => strings.HasPrefix f opt) fs.

(** The flags of [fs] that start with [opt], in order. *)
Definition tokens_of (opt : string) (fs : list string) : list string :=
  List.filter (fun f => strings.HasPrefix f opt) fs.

(** The default that [aaptFlags] computes for a version option. *)
Definition version_default (ctx : ModuleContext) (opt : string) : string :=
  if String.eqb opt "--version-code"
  then "--version-code " +:+ PlatformSdkVersion (AConfig ctx)
  else "--version-name " +:+ PlatformVersion (AConfig ctx) +:+ "-"
         +:+ BuildNumber (AConfig ctx).

(** The overlays of the base resource directories: for every overlay root
    in configuration order, the valid overlays of the base directories in
    their order. *)
Definition overlays_of (ctx : ModuleContext) (base : list Path) : list Path :=
  flat_map
    (fun overlayDir =>
       flat_map
         (fun resourceDir =>
            match OverlayPath overlayDir ctx resourceDir with
            | Some overlay => [overlay]
            | None => []
            end)
         base)
    (ResourceOverlays (AConfig ctx)).

(** The flags of one packaging invocation as the design states them: the
    base flags, followed by the product characteristics unless a base flag
    starts with [--product]. *)
Definition spec_with_product (ctx : ModuleContext) (base : list string)
    : list string :=
  if has_option "--product" base then base
  else base ++ ["--product " +:+ ProductAaptCharacteristics (AConfig ctx)].

(** The certificate set as the design states it: [resolveCertificates]
    branches on the shape of the certificate spec, and resolves every
    additional certificate against the module source root. *)
Definition spec_resolveCertificates (certSpec : string)
    (additional : list string)
    (defaultCert defaultCertDir moduleSourceRoot : string) : list string :=
  (if decide (certSpec = "") then defaultCert
   else if strings.Contains_byte filepath.Separator certSpec
        then filepath_Join [moduleSourceRoot; certSpec]
        else filepath_Join [defaultCertDir; certSpec])
  :: map (fun entry => filepath_Join [moduleSourceRoot; entry]) additional.

(** The per-directory tokens as the design states them. *)
Definition spec_dir_tokens (assetDirs resourceDirs : list Path) : list string :=
  map (fun d => "-A " +:+ Path_String d) assetDirs
  ++ map (fun d => "-S " +:+ Path_String d) resourceDirs.

(** The certificate lists handed to the package builder. *)
Definition certificates_used (acts : list BuildAction) : list (list string) :=
  flat_map
    (fun b => match b with
              | AppPackage _ _ _ certificates => [certificates]
              | _ => []
              end)
    acts.

(** The flags read by the package builder, and by the export-package
    builder. *)
Definition appPackage_args (acts : list BuildAction) : list (list string) :=
  flat_map
    (fun b => match b with AppPackage _ args _ _ => [args] | _ => [] end) acts.

Definition exportPackage_args (acts : list BuildAction) : list (list string) :=
  flat_map
    (fun b => match b with ExportPackage _ args _ => [args] | _ => [] end) acts.

(** The actions of the resource stage: the two rule builders and the
    check-build registrations of their outputs. *)
Definition is_resource_action (b : BuildAction) : bool :=
  match b with
  | ResourceJavaFiles _ _ _ | ExportPackage _ _ _ | CheckbuildFile _ => true
  | _ => false
  end.

(** The slices handed to rule builders. *)
Definition flag_slices (acts : list BuildAction) : list slice :=
  flat_map
    (fun b => match b with
              | ResourceJavaFiles flags _ _
              | ExportPackage flags _ _
              | AppPackage flags _ _ _ => [flags]
              | _ => []
              end)
    acts.

End app_go_values.

(** ** Panicking dependencies, and a property that is not read *)

(** The direct dependencies on which the visitor of [aaptFlags] panics: a
    [Dependency] named [framework-res] that does not implement
    [sdkDependency], and that is no [*AndroidApp] (the type assertion
    fails) or has a nil export package ([String()] is called on it). *)
Definition visitor_panics (module : blueprint_Module) : Prop :=
  as_sdkDependency module = None /\
  is_Dependency module = true /\
  OtherModuleName module = "framework-res" /\
  (as_AndroidApp module = None \/
   exists app, as_AndroidApp module = Some app /\ exportPackage app = None).

(** The module with its [Package_splits] property set to [v]. *)
Definition set_Package_splits (v : list string) (a : AndroidApp) : AndroidApp :=
  {| Module_ := Module_ a;
     appProperties :=
       {| Certificate := Certificate (appProperties a);
          Additional_certificates := Additional_certificates (appProperties a);
          Export_package_resources := Export_package_resources (appProperties a);
          Aaptflags := Aaptflags (appProperties a);
          Package_splits := v;
          Asset_dirs := Asset_dirs (appProperties a);
          Android_resource_dirs := Android_resource_dirs (appProperties a) |};
     aaptJavaFileList := aaptJavaFileList a;
     exportPackage := exportPackage a |}.


(** ** A sample build tree *)

Module Sample.

(** A reallocation leaves as much spare room as the old capacity. *)
Definition runtime : GoRuntime :=
  {| growslice_slack := fun oldcap _ => oldcap |}.

(** [filepath.Join] on elements that are clean already: the non-empty
    ones, separated. *)
Definition gofilepath : GoFilepath :=
  {| filepath_Join := fun elem =>
       String.concat "/" (List.filter (fun e => negb (String.eqb e "")) elem) |}.

Definition paths : AndroidPaths :=
  {| PathForSource := fun _ => PathOf "src";
     PathForModuleSrc := fun _ p => PathOf ("app/" +:+ p);
     PathsWithOptionalDefaultForModuleSrc := fun _ dirs def =>
       match dirs with
       | [] => [PathOf ("app/" +:+ def)]
       | _ :: _ => map (fun d => PathOf ("app/" +:+ d)) dirs
       end;
     OverlayPath := fun overlayDir _ resourceDir =>
       if String.eqb (Path_String overlayDir) "vendor/overlay"
       then Some (PathOf (Path_String overlayDir +:+ "/"
                            +:+ Path_String resourceDir))
       else None;
     PathForModuleInstall := fun _ d => PathOf ("out/system/" +:+ d) |}.

Definition java : JavaPackage :=
  {| Module_deps := fun _ ctx => ctx;
     Module_compile := fun _ m =>
       set_outputFile (Some (PathOf "out/classes.jar")) m;
     frameworkResTag := {| tag_name := "framework-res" |};
     resourceJavaFiles_outputs := fun _ =>
       (PathOf "out/public_resources.xml", PathOf "out/proguard.options",
        PathOf "out/R.java.list");
     exportPackage_output := fun _ => PathOf "out/package-export.apk";
     appPackage_output := fun _ => PathOf "out/app.apk" |}.

Definition config : Config :=
  {| ProductAaptCharacteristics := "nosdcard";
     DefaultAppCertificate := PathOf "build/target/product/security/testkey";
     DefaultAppCertificateDir := PathOf "build/target/product/security";
     ResourceOverlays := [PathOf "device/overlay"; PathOf "vendor/overlay"];
     PlatformSdkVersion := "26";
     PlatformVersion := "8.0.0";
     BuildNumber := "eng.4242" |}.

Definition java_module : Module :=
  {| properties := {| No_standard_libraries := false; Manifest := None |};
     deviceProperties := {| Sdk_version := ""; Dex := true |};
     ExtraSrcLists := [];
     outputFile := None |}.

(** The platform resources, built with their export package. *)
Definition framework_res : AndroidApp :=
  {| Module_ := java_module;
     appProperties :=
       {| Certificate := "platform";
          Additional_certificates := [];
          Export_package_resources := true;
          Aaptflags := goslice.nil;
          Package_splits := [];
          Asset_dirs := [];
          Android_resource_dirs := [] |};
     aaptJavaFileList := None;
     exportPackage := Some (PathOf "out/framework-res/package-export.apk") |}.

Definition deps : list blueprint_Module :=
  [ {| OtherModuleName := "sdk_v21";
       as_sdkDependency := Some [PathOf "prebuilts/sdk/21/android.jar"];
       is_Dependency := false;
       as_AndroidApp := None |};
    {| OtherModuleName := "framework-res";
       as_sdkDependency := None;
       is_Dependency := true;
       as_AndroidApp := Some framework_res |};
    {| OtherModuleName := "guava";
       as_sdkDependency := None;
       is_Dependency := true;
       as_AndroidApp := None |} ].

(** A tree with one resource file and one asset. *)
Definition ctx : ModuleContext :=
  {| AConfig := config;
     Glob := fun pattern _ =>
       if String.eqb pattern "app/res/**/*"
       then [PathOf "app/res/values/strings.xml"]
       else if String.eqb pattern "app/assets/**/*"
       then [PathOf "app/assets/font.ttf"]
       else [];
     DirectDeps := deps;
     ModuleName := "Calendar" |}.

(** The same tree without the resource file. *)
Definition ctx_bare : ModuleContext :=
  {| AConfig := config;
     Glob := fun pattern _ =>
       if String.eqb pattern "app/assets/**/*"
       then [PathOf "app/assets/font.ttf"]
       else [];
     DirectDeps := deps;
     ModuleName := "Calendar" |}.

(** An application whose two configured flags sit in an array of four
    cells. *)
Definition app : AndroidApp :=
  {| Module_ := java_module;
     appProperties :=
       {| Certificate := "platform";
          Additional_certificates := ["keys/extra.x509.pem"];
          Export_package_resources := true;
          Aaptflags := Slice (Some 0) 0 2 4;
          Package_splits := [];
          Asset_dirs := ["assets"; "fonts"];
          Android_resource_dirs := [] |};
     aaptJavaFileList := None;
     exportPackage := None |}.

Definition st : state :=
  State [["--version-code 7"; "--version-name 1.0"; ""; ""]] [].

(** An application without configured flags or directories, with
    certificate spec [certificate]. *)
Definition plain_app (certificate : string) : AndroidApp :=
  {| Module_ := java_module;
     appProperties :=
       {| Certificate := certificate;
          Additional_certificates := [];
          Export_package_resources := false;
          Aaptflags := goslice.nil;
          Package_splits := [];
          Asset_dirs := [];
          Android_resource_dirs := [] |};
     aaptJavaFileList := None;
     exportPackage := None |}.

End Sample.

(** ** A sample user of built platform resources *)

Module Chain.

(** [Sample.app] once [GenerateAndroidBuildActions] has run on the sample
    tree. *)
Definition built : AndroidApp :=
  {| Module_ :=
       {| properties := {| No_standard_libraries := false; Manifest := None |};
          deviceProperties := {| Sdk_version := ""; Dex := true |};
          ExtraSrcLists := [PathOf "out/R.java.list"];
          outputFile := Some (PathOf "out/app.apk") |};
     appProperties := appProperties Sample.app;
     aaptJavaFileList := Some (PathOf "out/R.java.list");
     exportPackage := Some (PathOf "out/package-export.apk") |}.

Definition platform : blueprint_Module :=
  {| OtherModuleName := "framework-res";
     as_sdkDependency := None;
     is_Dependency := true;
     as_AndroidApp := Some built |}.

(** A tree without files, for a module that depends on [platform] only. *)
Definition ctx : ModuleContext :=
  {| AConfig := Sample.config;
     Glob := fun _ _ => [];
     DirectDeps := [platform];
     ModuleName := "Settings" |}.

End Chain.


(** * Properties *)

(** ** Strings *)

Section string_facts.

Lemma string_app_assoc (s1 s2 s3 : string) :
  s1 +:+ s2 +:+ s3 = (s1 +:+ s2) +:+ s3.
Proof.
  induction s1 as [|c s1 IH]; [done|].
  change (String c (s1 +:+ s2 +:+ s3) = String c ((s1 +:+ s2) +:+ s3)).
  by f_equal.
Qed.

Lemma prefix_inv p s : String.prefix p s = true -> exists t, s = p +:+ t.
Proof.
  revert s. induction p as [|a p IH]; intros s Hp.
  - by exists s.
  - destruct s as [|b s]; [simpl in Hp; discriminate|].
    simpl in Hp. destruct (ascii_dec a b) as [->|]; [|discriminate].
    destruct (IH s Hp) as [t ->]. by exists t.
Qed.

Lemma HasPrefix_version_exclusive f :
  strings.HasPrefix f "--version-code" = true ->
  strings.HasPrefix f "--version-name" = false.
Proof.
  unfold strings.HasPrefix. intros [t ->]%prefix_inv. reflexivity.
Qed.

Lemma JoinWithPrefix_concat strs prefix :
  JoinWithPrefix strs prefix = String.concat " " (map (String.append prefix) strs).
Proof.
  induction strs as [|s [|s' rest] IH]; [done | done |].
  change (JoinWithPrefix (s :: s' :: rest) prefix)
    with (prefix +:+ s +:+ " " +:+ JoinWithPrefix (s' :: rest) prefix).
  rewrite IH.
  change (String.concat " " (map (String.append prefix) (s :: s' :: rest)))
    with ((prefix +:+ s) +:+ " "
          +:+ String.concat " " (map (String.append prefix) (s' :: rest))).
  by rewrite string_app_assoc.
Qed.

(** A joined directory flag is empty or starts with its prefix. *)
Lemma JoinWithPrefix_shape strs prefix :
  JoinWithPrefix strs prefix = "" \/
  exists t, JoinWithPrefix strs prefix = prefix +:+ t.
Proof.
  destruct strs as [|s [|s' rest]]; [by left | right; by eexists |].
  right. eexists. reflexivity.
Qed.

End string_facts.

(** ** The store of backing arrays *)

Section goslice_facts.

Import goslice.

Implicit Types (h : store) (s t : slice) (xs arr : list string).

Lemma wf_ptr_lt h s p : wf h s -> ptr s = Some p -> p < length h.
Proof.
  intros [_ Hs] Hp. rewrite Hp in Hs. destruct Hs as (arr & Harr & _).
  by apply lookup_lt_Some in Harr.
Qed.

Lemma view_length h s : wf h s -> length (view h s) = len s.
Proof.
  intros [Hle Hs]. unfold view. destruct (ptr s) as [p|].
  - destruct Hs as (arr & -> & Hb).
    rewrite length_take, length_drop. lia.
  - simpl. lia.
Qed.

Lemma wf_nil h : wf h nil.
Proof. split; simpl; [lia | done]. Qed.

Lemma guards_refl s : guards s s.
Proof. intros p _ _. lia. Qed.

Lemma guards_nil t : guards nil t.
Proof. intros p Hp. discriminate. Qed.

Lemma length_store_at i xs arr :
  i + length xs <= length arr -> length (store_at i xs arr) = length arr.
Proof.
  intros Hb. unfold store_at.
  rewrite !length_app, length_take, length_drop. lia.
Qed.

(** The cells before the write are what they were. *)
Lemma take_drop_store_at i o l xs arr :
  i <= length arr -> o + l <= i ->
  take l (drop o (store_at i xs arr)) = take l (drop o arr).
Proof.
  intros Hi Hol. unfold store_at.
  rewrite !take_drop_commute. f_equal.
  rewrite take_app_le by (rewrite length_take; lia).
  rewrite take_take. f_equal. lia.
Qed.

(** The cells of the slice followed by the cells just written. *)
Lemma take_drop_store_at_new o l xs arr :
  o + l + length xs <= length arr ->
  take (l + length xs) (drop o (store_at (o + l) xs arr))
  = take l (drop o arr) ++ xs.
Proof.
  intros Hb. unfold store_at.
  rewrite drop_app_le by (rewrite length_take; lia).
  rewrite <- take_drop_commute.
  rewrite (assoc_L (++)).
  apply take_app_length'.
  rewrite length_app, length_take, length_drop. lia.
Qed.

Lemma append_grows slack h s xs s' h' :
  wf h s -> append slack s xs h = (s', h') -> grows h s h' s' xs.
Proof.
  intros Hwf. pose proof Hwf as [Hle Hs]. unfold append.
  destruct (Nat.leb_spec (len s + length xs) (cap s)) as [Hfit|Hgrow].
  - destruct (ptr s) as [p|] eqn:Hp.
    + destruct Hs as (arr & Harr & Hb). rewrite Harr.
      intros [= <- <-].
      assert (Hp_lt : p < length h) by (by apply lookup_lt_Some in Harr).
      assert (Hlen : length (store_at (off s + len s) xs arr) = length arr)
        by (apply length_store_at; lia).
      split; [|split; [|split; [|split]]].
      * split; simpl; [lia|].
        exists (store_at (off s + len s) xs arr).
        rewrite list_lookup_insert_eq by done. split; [done | lia].
      * unfold view; simpl. rewrite Hp, Harr.
        rewrite list_lookup_insert_eq by done.
        apply take_drop_store_at_new. lia.
      * rewrite length_insert. lia.
      * simpl. intros q [= <-]. by left.
      * intros t [Ht_le Ht] Hg. split; [|split].
        -- split; [done|].
           destruct (ptr t) as [q|] eqn:Hq; [|done].
           destruct Ht as (arr' & Harr' & Hb').
           destruct (decide (p = q)) as [->|Hne].
           ++ rewrite Harr in Harr'. injection Harr' as <-.
              exists (store_at (off s + len s) xs arr).
              rewrite list_lookup_insert_eq by done. split; [done | lia].
           ++ exists arr'. rewrite list_lookup_insert_ne by done. done.
        -- unfold view.
           destruct (ptr t) as [q|] eqn:Hq; [|done].
           destruct Ht as (arr' & Harr' & Hb').
           destruct (decide (p = q)) as [->|Hne].
           ++ rewrite Harr in Harr'. injection Harr' as <-.
              rewrite list_lookup_insert_eq by done. rewrite Harr.
              apply take_drop_store_at; [lia|].
              apply (Hg q); done.
           ++ rewrite list_lookup_insert_ne by done. done.
        -- intros q [= <-] Hq. simpl. specialize (Hg p Hp Hq). lia.
    + intros [= <- <-].
      assert (xs = []) as -> by (destruct xs; [done | simpl in *; lia]).
      split; [done|]. split; [by rewrite (right_id_L [] (++))|].
      split; [done|]. split; [intros q Hq; left; congruence|].
      intros t Ht Hg. done.
  - intros [= <- <-].
    split; [|split; [|split; [|split]]].
    + split; simpl; [lia|].
      eexists. split; [by apply list_lookup_middle|].
      rewrite !length_app, length_replicate.
      rewrite (view_length h s Hwf). lia.
    + unfold view at 1; simpl.
      rewrite list_lookup_middle by done. rewrite drop_0.
      rewrite (assoc_L (++)). apply take_app_length'.
      rewrite length_app, (view_length h s Hwf). done.
    + rewrite length_app. simpl. lia.
    + intros q [= <-]. by right.
    + intros t Ht Hg. pose proof Ht as [Ht_le Ht'].
      split; [|split].
      * split; [done|].
        destruct (ptr t) as [q|] eqn:Hq; [|done].
        destruct Ht' as (arr' & Harr' & Hb'). exists arr'.
        rewrite lookup_app_l by (by apply lookup_lt_Some in Harr'). done.
      * unfold view. destruct (ptr t) as [q|] eqn:Hq; [|done].
        destruct Ht' as (arr' & Harr' & Hb').
        rewrite lookup_app_l by (by apply lookup_lt_Some in Harr'). done.
      * intros q [= <-] Hq.
        pose proof (wf_ptr_lt h t _ Ht Hq). lia.
Qed.

Lemma grows_refl h s : wf h s -> grows h s h s [].
Proof.
  intros Hwf. split; [done|]. split; [by rewrite (right_id_L [] (++))|].
  split; [done|]. split; [intros p Hp; by left|]. done.
Qed.

Lemma grows_trans h s h1 s1 xs h2 s2 ys :
  grows h s h1 s1 xs -> grows h1 s1 h2 s2 ys -> grows h s h2 s2 (xs ++ ys).
Proof.
  intros (Hwf1 & Hv1 & Hl1 & Hp1 & Hf1) (Hwf2 & Hv2 & Hl2 & Hp2 & Hf2).
  split; [done|]. split; [by rewrite Hv2, Hv1, (assoc_L (++))|].
  split; [lia|].
  split.
  { intros p Hp. destruct (Hp2 p Hp) as [Hp'|Hp']; [|right; lia].
    destruct (Hp1 p Hp') as [Hp''|Hp'']; [by left | by right]. }
  intros t Ht Hg. destruct (Hf1 t Ht Hg) as (Ht1 & Hvt1 & Hg1).
  destruct (Hf2 t Ht1 Hg1) as (Ht2 & Hvt2 & Hg2).
  split; [done|]. split; [congruence | done].
Qed.

End goslice_facts.

Section frames.

Implicit Types (h : list (list string)) (s t : slice).

Lemma frame_refl h : frame h h.
Proof. split; [done|]. intros t Ht. done. Qed.

Lemma frame_trans h1 h2 h3 : frame h1 h2 -> frame h2 h3 -> frame h1 h3.
Proof.
  intros [Hl1 Hf1] [Hl2 Hf2]. split; [lia|].
  intros t Ht. destruct (Hf1 t Ht) as [Ht2 Hv2].
  destruct (Hf2 t Ht2) as [Ht3 Hv3]. split; [done | congruence].
Qed.

Lemma frame_wf h h' t : frame h h' -> goslice.wf h t -> goslice.wf h' t.
Proof. intros [_ Hf] Ht. by apply Hf. Qed.

Lemma frame_view h h' t :
  frame h h' -> goslice.wf h t -> goslice.view h' t = goslice.view h t.
Proof. intros [_ Hf] Ht. by apply Hf. Qed.

Lemma grows_wf h s h' s' xs : grows h s h' s' xs -> goslice.wf h' s'.
Proof. by intros [? _]. Qed.

Lemma grows_view h s h' s' xs :
  grows h s h' s' xs -> goslice.view h' s' = goslice.view h s ++ xs.
Proof. by intros (_ & ? & _). Qed.

Lemma frame_intact h h' t args :
  frame h h' -> goslice.wf h t -> goslice.view h t = args ->
  goslice.wf h' t /\ goslice.view h' t = args.
Proof. intros [_ Hf] Ht <-. by apply Hf. Qed.

Lemma apart_sym s t : apart s t -> apart t s.
Proof. intros Hst p Hp Hq. by apply (Hst p). Qed.

Lemma apart_nil_l t : apart goslice.nil t.
Proof. intros p Hp. discriminate. Qed.

Lemma apart_nil_r s : apart s goslice.nil.
Proof. intros p _ Hp. discriminate. Qed.

Lemma apart_guards s t : apart s t -> goslice.guards s t.
Proof. intros Hst p Hp Hq. by destruct (Hst p Hp). Qed.

Lemma fresh_apart h c t : goslice.wf h t -> fresh h c -> apart c t.
Proof.
  intros Ht Hc p Hp Hq. pose proof (wf_ptr_lt h t p Ht Hq).
  specialize (Hc p Hp). lia.
Qed.

Lemma fresh_mono h h' c : length h <= length h' -> fresh h' c -> fresh h c.
Proof. intros Hle Hc p Hp. specialize (Hc p Hp). lia. Qed.

(** A copy made by appending to the nil slice lives in an array of its
    own. *)
Lemma append_nil_fresh slack xs h c h' :
  goslice.append slack goslice.nil xs h = (c, h') -> fresh h c.
Proof.
  unfold goslice.append. simpl.
  destruct (length xs <=? 0)%nat; intros [= <- <-] p; simpl; [done|].
  intros [= <-]. done.
Qed.

(** Appending to a fresh slice gives a fresh slice. *)
Lemma grows_fresh h0 h s h' s' xs :
  length h0 <= length h -> fresh h0 s -> grows h s h' s' xs -> fresh h0 s'.
Proof.
  intros Hle Hs (_ & _ & _ & Hptr & _) p Hp.
  destruct (Hptr p Hp) as [Hp'|Hp']; [by apply Hs | lia].
Qed.

End frames.

(** ** Evaluation *)

Section wp_rules.

Context `{!GoRuntime}.

Lemma wp_ret {A} (a : A) Q st : Q a st -> wp (mret a) Q st.
Proof. intros HQ. by exists a, st. Qed.

Lemma wp_bind {A B} (m : M A) (f : A -> M B) Q st :
  wp m (fun a st' => wp (f a) Q st') st -> wp (m ≫= f) Q st.
Proof.
  intros (a & st' & Hm & b & st'' & Hf & HQ).
  exists b, st''. split; [|done].
  unfold mbind, M_bind. by rewrite Hm.
Qed.

Lemma wp_mono {A} (m : M A) (Q Q' : A -> state -> Prop) st :
  wp m Q st -> (forall a st', Q a st' -> Q' a st') -> wp m Q' st.
Proof. intros (a & st' & Hm & HQ) HQQ'. exists a, st'. auto. Qed.

Lemma wp_read s Q st : Q (goslice.view (heap st) s) st -> wp (read s) Q st.
Proof. intros HQ. by eexists _, _. Qed.

Lemma wp_emit b Q st :
  Q tt (State (heap st) (actions st ++ [b])) -> wp (emit b) Q st.
Proof. intros HQ. by eexists _, _. Qed.

Lemma wp_or_panic {A} (o : option A) Q st :
  (exists a, o = Some a /\ Q a st) -> wp (or_panic o) Q st.
Proof. intros (a & -> & HQ). by exists a, st. Qed.

Lemma wp_append s xs Q st :
  goslice.wf (heap st) s ->
  (forall s' h', grows (heap st) s h' s' xs -> Q s' (State h' (actions st))) ->
  wp (append s xs) Q st.
Proof.
  intros Hwf HQ. unfold wp, append.
  destruct (goslice.append growslice_slack s xs (heap st)) as [s' h'] eqn:Happ.
  exists s', (State h' (actions st)). split; [done|].
  apply HQ. by eapply append_grows.
Qed.

(** A loop whose body keeps [I], indexed by the elements already seen. *)
Lemma wp_for_range {A B} (P : A -> Prop) (I : list A -> B -> state -> Prop)
    (body : B -> A -> M B) xs :
  Forall P xs ->
  (forall pre x acc st, P x -> I pre acc st ->
                        wp (body acc x) (I (pre ++ [x])) st) ->
  forall pre acc st, I pre acc st ->
                     wp (for_range body xs acc) (I (pre ++ xs)) st.
Proof.
  intros HP Hbody. induction HP as [|x xs Hx HP IH]; intros pre acc st HI.
  - simpl. apply wp_ret. by rewrite (right_id_L [] (++)).
  - simpl. apply wp_bind.
    eapply wp_mono; [by apply Hbody|].
    intros acc' st' HI'. simpl.
    rewrite (cons_middle x pre xs), (assoc_L (++)). by apply IH.
Qed.

(** [append([]string(nil), fs...)]: the copy shows [fs] and lies in an array
    allocated for it; nothing that existed before is touched. *)
Lemma wp_copy fs Q st :
  (forall c h',
      goslice.wf h' c -> goslice.view h' c = fs ->
      frame (heap st) h' ->
      fresh (heap st) c ->
      Q c (State h' (actions st))) ->
  wp (append goslice.nil fs) Q st.
Proof.
  intros HQ. unfold wp, append.
  destruct (goslice.append growslice_slack goslice.nil fs (heap st))
    as [c h'] eqn:Happ.
  exists c, (State h' (actions st)). split; [done|].
  pose proof (append_grows _ _ _ _ _ _ (wf_nil (heap st)) Happ)
    as (Hwf & Hview & Hlen & _ & Hframe).
  apply HQ; [done | done | |].
  - split; [done|]. intros t Ht.
    destruct (Hframe t Ht (guards_nil t)) as (? & ? & _). done.
  - by eapply append_nil_fresh.
Qed.

End wp_rules.

Ltac wp_simpl :=
  cbn beta iota zeta delta [heap actions fst snd].

Ltac wp_step :=
  lazymatch goal with
  | |- wp (mret _) _ _ => apply wp_ret
  | |- wp (read _) _ _ => apply wp_read
  | |- wp (emit _) _ _ => apply wp_emit
  | |- wp (_ ≫= _) _ _ => apply wp_bind
  end.

Ltac wp_go := repeat (wp_step; wp_simpl).

(** ** The runs of [aaptFlags] and [GenerateAndroidBuildActions] *)

Section app_go_runs.

Context `{!GoRuntime, !GoFilepath, !AndroidPaths, !JavaPackage}.

(** The loop over the files of one dependency. *)
Lemma wp_dep_loop h0 s0 xs0 files fl st :
  grows h0 s0 (heap st) fl xs0 ->
  wp (for_range
        (fun aaptFlags dep => append aaptFlags ["-I " +:+ Path_String dep])
        files fl)
     (fun fl' st' =>
        actions st' = actions st /\
        grows h0 s0 (heap st') fl'
              (xs0 ++ map (fun dep => "-I " +:+ Path_String dep) files))
     st.
Proof.
  intros Hg.
  pose (I := fun (pre : list Path) (fl' : slice) (st' : state) =>
               actions st' = actions st /\
               grows h0 s0 (heap st') fl'
                     (xs0 ++ map (fun dep => "-I " +:+ Path_String dep) pre)).
  apply (wp_for_range (fun _ => True) I _ files) with (pre := []).
  - by apply Forall_true.
  - intros pre x acc st1 _ [Hact Hacc].
    apply wp_append; [exact (proj1 Hacc)|].
    intros s' h' Hstep. split; [done|]. simpl.
    rewrite map_app, (assoc_L (++)). by eapply grows_trans.
  - split; [done|]. simpl. by rewrite (right_id_L [] (++)).
Qed.

Lemma dep_files_snoc pre module :
  dep_files (pre ++ [module]) = dep_files pre ++ default [] (depFiles_of module).
Proof.
  unfold dep_files. rewrite flat_map_app. simpl. by rewrite (right_id_L [] (++)).
Qed.

(** The visit of the direct dependencies. *)
Lemma wp_visit_deps ctx h0 s0 xs0 deps0 fl st :
  deps_ok ctx ->
  grows h0 s0 (heap st) fl xs0 ->
  wp (for_range visit_dep (DirectDeps ctx) (fl, deps0))
     (fun r st' =>
        actions st' = actions st /\
        r.2 = deps0 ++ dep_files (DirectDeps ctx) /\
        grows h0 s0 (heap st') r.1 (xs0 ++ dep_flags (DirectDeps ctx)))
     st.
Proof.
  intros Hok Hg.
  pose (I := fun (pre : list blueprint_Module) (r : slice * list Path)
                 (st' : state) =>
               actions st' = actions st /\
               r.2 = deps0 ++ dep_files pre /\
               grows h0 s0 (heap st') r.1 (xs0 ++ dep_flags pre)).
  apply (wp_for_range (fun module => is_Some (depFiles_of module)) I
           _ (DirectDeps ctx)) with (pre := []).
  - exact Hok.
  - intros pre module [fl1 deps1] st1 [files Hfiles] (Hact & Hdeps & Hacc).
    simpl in Hdeps, Hacc. unfold visit_dep.
    apply wp_bind, wp_or_panic. exists files. split; [done|].
    apply wp_bind. eapply wp_mono; [by apply wp_dep_loop|].
    intros fl2 st2 [Hact2 Hacc2]. apply wp_ret.
    split; [congruence|]. simpl.
    rewrite dep_files_snoc, Hfiles. simpl.
    split; [by rewrite Hdeps, (assoc_L (++))|].
    unfold dep_flags. rewrite dep_files_snoc, Hfiles. simpl.
    by rewrite map_app, (assoc_L (++)).
  - split; [done|]. simpl. unfold dep_flags, dep_files. simpl.
    by rewrite !(right_id_L [] (++)).
Qed.

(** One [append] in the course of [aaptFlags]. *)
Lemma wp_append_step {A} h0 s0 xs0 fl ys (k : slice -> M A) Q st :
  grows h0 s0 (heap st) fl xs0 ->
  (forall fl' st', actions st' = actions st ->
                   grows h0 s0 (heap st') fl' (xs0 ++ ys) ->
                   wp (k fl') Q st') ->
  wp (append fl ys ≫= k) Q st.
Proof.
  intros Hacc Hk. apply wp_bind, wp_append; [exact (proj1 Hacc)|].
  intros s' h' Hstep. apply Hk; [done|]. simpl. by eapply grows_trans.
Qed.

Theorem aaptFlags_wp ctx a st :
  goslice.wf (heap st) (Aaptflags (appProperties a)) ->
  deps_ok ctx ->
  wp (aaptFlags ctx a)
     (fun r st' =>
        snd (fst r) = aaptDeps_of ctx a /\
        snd r = hasResources_of ctx a /\
        actions st' = actions st /\
        grows (heap st) (Aaptflags (appProperties a)) (heap st') (fst (fst r))
              (computed_flags ctx a
                 (goslice.view (heap st) (Aaptflags (appProperties a)))))
     st.
Proof.
  intros Hwf Hok. unfold aaptFlags.
  apply wp_bind, wp_read.
  unfold computed_flags, aaptDeps_of, hasResources_of.
  destruct (scan_version _) as [hasVersionCode hasVersionName]. simpl.
  destruct (glob_resourceDirs _ _) as [aaptDeps hasResources]. simpl.
  pose proof (grows_refl _ _ Hwf) as Hacc.
  eapply wp_append_step; [exact Hacc|]. clear Hacc. intros fl1 st1 Hact1 Hacc.
  eapply wp_append_step; [exact Hacc|]. clear Hacc. intros fl2 st2 Hact2 Hacc.
  eapply wp_append_step; [exact Hacc|]. clear Hacc. intros fl3 st3 Hact3 Hacc.
  eapply wp_append_step; [exact Hacc|]. clear Hacc. intros fl4 st4 Hact4 Hacc.
  apply wp_bind. eapply wp_mono; [by eapply wp_visit_deps|].
  clear Hacc. intros [fl5 deps5] st5 (Hact5 & Hdeps & Hacc). simpl in Hdeps, Hacc.
  eapply wp_append_step; [exact Hacc|]. clear Hacc. intros fl6 st6 Hact6 Hacc.
  eapply wp_append_step; [exact Hacc|]. clear Hacc. intros fl7 st7 Hact7 Hacc.
  assert (Hacts : actions st7 = actions st) by congruence.
  clear Hact1 Hact2 Hact3 Hact4 Hact5 Hact6 Hact7.
  simpl in Hacc. rewrite <- !(assoc_L (++)) in Hacc. simpl in Hacc.
  rewrite <- (assoc_L (++)) in Hdeps. unfold sdkVersion_of.
  destruct hasVersionCode, hasVersionName; simpl.
  - apply wp_bind, wp_ret, wp_bind, wp_ret, wp_ret. done.
  - apply wp_bind, wp_ret.
    eapply wp_append_step; [exact Hacc|]. clear Hacc. intros fl8 st8 Hact8 Hacc.
    apply wp_ret. simpl.
    simpl in Hacc. rewrite <- ?(assoc_L (++)) in Hacc. simpl in Hacc.
    split; [done|]. split; [done|]. split; [congruence|]. done.
  - eapply wp_append_step; [exact Hacc|]. clear Hacc. intros fl8 st8 Hact8 Hacc.
    apply wp_bind, wp_ret, wp_ret. simpl.
    simpl in Hacc. rewrite <- ?(assoc_L (++)) in Hacc. simpl in Hacc.
    split; [done|]. split; [done|]. split; [congruence|]. done.
  - eapply wp_append_step; [exact Hacc|]. clear Hacc. intros fl8 st8 Hact8 Hacc.
    eapply wp_append_step; [exact Hacc|]. clear Hacc. intros fl9 st9 Hact9 Hacc.
    apply wp_ret. simpl.
    simpl in Hacc. rewrite <- ?(assoc_L (++)) in Hacc. simpl in Hacc.
    split; [done|]. split; [done|]. split; [congruence|]. done.
Qed.

Lemma product_flags_wp ctx base st :
  wp (product_flags ctx base)
     (fun c st' =>
        actions st' = actions st /\
        goslice.wf (heap st') c /\
        goslice.view (heap st') c = with_product ctx (goslice.view (heap st) base) /\
        frame (heap st) (heap st') /\
        fresh (heap st) c)
     st.
Proof.
  unfold product_flags. apply wp_bind, wp_read.
  apply wp_bind, wp_copy. intros c h1 Hwf Hview Hframe Hfresh.
  apply wp_bind, wp_read. simpl. rewrite Hview. unfold with_product.
  destruct (scan_product _); simpl.
  - apply wp_ret. done.
  - apply wp_append; [done|]. simpl.
    intros c' h2 Hstep.
    pose proof Hstep as (Hwf' & Hview' & Hlen' & Hptr' & Hframe'). simpl.
    split; [done|]. split; [done|]. split; [congruence|].
    split; [|by eapply grows_fresh; [apply Hframe | done | done]].
    destruct Hframe as [Hlen Hframe]. split; [lia|].
    intros t Ht. destruct (Hframe t Ht) as [Ht1 Hv1].
    assert (Hg : goslice.guards c t)
      by exact (apart_guards _ _ (fresh_apart _ _ _ Ht Hfresh)).
    destruct (Hframe' t Ht1 Hg) as (Ht2 & Hv2 & _).
    split; [done | congruence].
Qed.

Lemma flags_intact_frame h h' b :
  frame h h' -> flags_intact h b -> flags_intact h' b.
Proof.
  intros [_ Hf]. destruct b; simpl; try done.
  all: intros [Hwf <-]; by apply Hf.
Qed.

Theorem GenerateAndroidBuildActions_wp ctx a st :
  goslice.wf (heap st) (Aaptflags (appProperties a)) ->
  deps_ok ctx ->
  wp (GenerateAndroidBuildActions ctx a)
     (fun a' st' =>
        exists fl st1 c1 c2 c3,
          aaptFlags ctx a st
          = Some ((fl, aaptDeps_of ctx a, hasResources_of ctx a), st1) /\
          actions st1 = actions st /\
          grows (heap st) (Aaptflags (appProperties a)) (heap st1) fl
                (computed_flags ctx a
                   (goslice.view (heap st) (Aaptflags (appProperties a)))) /\
          frame (heap st1) (heap st') /\
          actions st'
          = actions st
            ++ resource_actions ctx a (goslice.view (heap st1) fl) c1 c2
            ++ package_actions ctx a (goslice.view (heap st1) fl) c3 /\
          Forall (flags_intact (heap st'))
                 (resource_actions ctx a (goslice.view (heap st1) fl) c1 c2
                  ++ package_actions ctx a (goslice.view (heap st1) fl) c3) /\
          own_arrays [Aaptflags (appProperties a); fl] [c1; c2; c3] /\
          a' = final_module ctx a)
     st.
Proof.
  intros Hwf Hok.
  destruct (aaptFlags_wp ctx a st Hwf Hok)
    as ([[fl deps] hr] & st1 & Hrun & Hdeps & Hhr & Hact1 & Hgrows).
  simpl in Hdeps, Hhr, Hgrows. subst deps hr.
  pose proof (grows_wf _ _ _ _ _ Hgrows) as Hwfl.
  assert (Hwcfg : goslice.wf (heap st1) (Aaptflags (appProperties a))).
  { destruct Hgrows as (_ & _ & _ & _ & Hf).
    by destruct (Hf _ Hwf (guards_refl _)). }
  unfold GenerateAndroidBuildActions. apply wp_bind.
  exists (fl, aaptDeps_of ctx a, hasResources_of ctx a), st1.
  split; [exact Hrun|]. wp_simpl.
  unfold resource_actions, package_actions, final_module, compiled_Module,
    module_after_resources.
  destruct (hasResources_of ctx a) eqn:HhasRes.
  - wp_go. apply wp_copy. intros c1 h2 Hwf1 Hview1 Hframe1 Hfresh1.
    unfold CreateResourceJavaFiles. wp_go.
    rewrite Hview1.
    destruct (resourceJavaFiles_outputs ctx) as [[pub pro] jl].
    wp_go. cbn [appProperties set_Module set_aaptJavaFileList].
    assert (Hfl2 : goslice.view h2 fl = goslice.view (heap st1) fl)
      by (by apply frame_view).
    destruct (Export_package_resources (appProperties a)) eqn:Hexport.
    + wp_go. eapply wp_mono; [apply product_flags_wp|].
      intros c2 st3 (Hact3 & Hwf2 & Hview2 & Hframe2 & Hfresh2).
      cbn [heap actions] in Hact3, Hview2, Hframe2, Hfresh2.
      unfold CreateExportPackage. wp_go.
      eapply wp_mono; [apply product_flags_wp|].
      intros c3 st4 (Hact4 & Hwf3 & Hview3 & Hframe3 & Hfresh3).
      cbn [heap actions] in Hact4, Hview3, Hframe3, Hfresh3.
      unfold CreateAppPackage. wp_go.
      exists fl, st1, c1, c2, c3.
      assert (Hfl3 : goslice.view (heap st3) fl = goslice.view (heap st1) fl).
      { rewrite <- Hfl2. apply frame_view; [done|]. by eapply frame_wf. }
      rewrite Hfl2 in Hview2. rewrite Hfl3 in Hview3.
      split; [done|]. split; [done|]. split; [done|].
      split; [by eauto using frame_trans|].
      split; [|split; [|split]].
      * rewrite Hact4, Hact3, Hview2, Hview3, Hact1.
        rewrite <- !(assoc_L (++)). reflexivity.
      * repeat apply Forall_cons_2; try apply Forall_nil_2; simpl; try done.
        -- apply (frame_intact h2); [by eauto using frame_trans | done | done].
        -- by apply (frame_intact (heap st3)).
      * assert (Hfresh2' : fresh (heap st1) c2)
          by (eapply fresh_mono; [apply Hframe1 | done]).
        assert (Hfresh3' : fresh h2 c3)
          by (eapply fresh_mono; [apply Hframe2 | done]).
        assert (Hfresh3'' : fresh (heap st1) c3)
          by (eapply fresh_mono; [apply Hframe1 | done]).
        split.
        -- repeat apply Forall_cons_2; try apply Forall_nil_2;
             eauto using fresh_apart.
        -- repeat constructor; eauto using fresh_apart, apart_sym, frame_wf.
      * reflexivity.
    + wp_go.
      eapply wp_mono; [apply product_flags_wp|].
      intros c3 st4 (Hact4 & Hwf3 & Hview3 & Hframe3 & Hfresh3).
      cbn [heap actions] in Hact4, Hview3, Hframe3, Hfresh3.
      unfold CreateAppPackage. wp_go.
      exists fl, st1, c1, goslice.nil, c3.
      rewrite Hfl2 in Hview3.
      split; [done|]. split; [done|]. split; [done|].
      split; [by eauto using frame_trans|].
      split; [|split; [|split]].
      * rewrite Hact4, Hview3, Hact1.
        rewrite <- !(assoc_L (++)). reflexivity.
      * repeat apply Forall_cons_2; try apply Forall_nil_2; simpl; try done.
        by apply (frame_intact h2).
      * assert (Hfresh3' : fresh (heap st1) c3)
          by (eapply fresh_mono; [apply Hframe1 | done]).
        split.
        -- repeat apply Forall_cons_2; try apply Forall_nil_2;
             eauto using fresh_apart, apart_nil_l.
        -- repeat constructor;
             eauto using fresh_apart, apart_sym, apart_nil_l, apart_nil_r.
      * reflexivity.
  - wp_go.
    eapply wp_mono; [apply product_flags_wp|].
    intros c3 st4 (Hact4 & Hwf3 & Hview3 & Hframe3 & Hfresh3).
    cbn [heap actions] in Hact4, Hview3, Hframe3, Hfresh3.
    unfold CreateAppPackage. wp_go.
    exists fl, st1, goslice.nil, goslice.nil, c3.
    split; [done|]. split; [done|]. split; [done|].
    split; [done|].
    split; [|split; [|split]].
    + rewrite Hact4, Hview3, Hact1.
      rewrite <- !(assoc_L (++)). reflexivity.
    + repeat apply Forall_cons_2; try apply Forall_nil_2; simpl; done.
    + split.
      * repeat apply Forall_cons_2; try apply Forall_nil_2;
          eauto using fresh_apart, apart_nil_l.
      * repeat constructor;
          eauto using fresh_apart, apart_sym, apart_nil_l, apart_nil_r.
    + reflexivity.
Qed.

End app_go_runs.

(** ** The properties of the design *)

Section app_go_properties.

Context `{!GoRuntime, !GoFilepath, !AndroidPaths, !JavaPackage}.

Lemma scan_version_fold fs c n :
  fold_left
    (fun '(hasVersionCode, hasVersionName) f =>
       if strings.HasPrefix f "--version-code" then (true, hasVersionName)
       else if strings.HasPrefix f "--version-name" then (hasVersionCode, true)
       else (hasVersionCode, hasVersionName))
    fs (c, n)
  = (c || has_option "--version-code" fs, n || has_option "--version-name" fs).
Proof.
  revert c n. induction fs as [|f fs IH]; intros c n.
  - simpl. by rewrite !orb_false_r.
  - cbn [fold_left has_option existsb].
    destruct (strings.HasPrefix f "--version-code") eqn:Hc.
    + rewrite (HasPrefix_version_exclusive f Hc). rewrite IH.
      unfold has_option. simpl. by rewrite orb_true_r.
    + destruct (strings.HasPrefix f "--version-name") eqn:Hn; rewrite IH.
      * unfold has_option. simpl. by rewrite orb_true_r.
      * done.
Qed.

Lemma scan_version_spec fs :
  scan_version fs
  = (has_option "--version-code" fs, has_option "--version-name" fs).
Proof. unfold scan_version. by rewrite scan_version_fold. Qed.

Lemma tokens_of_app opt xs ys :
  tokens_of opt (xs ++ ys) = tokens_of opt xs ++ tokens_of opt ys.
Proof. apply List.filter_app. Qed.

Lemma tokens_of_none opt fs :
  Forall (fun f => strings.HasPrefix f opt = false) fs -> tokens_of opt fs = [].
Proof.
  induction 1 as [|f fs Hf _ IH]; [done|].
  unfold tokens_of in *. simpl. by rewrite Hf, IH.
Qed.

Lemma dep_flags_no_version opt pre :
  opt = "--version-code" \/ opt = "--version-name" ->
  tokens_of opt (dep_flags pre) = [].
Proof.
  intros Hopt. apply tokens_of_none. unfold dep_flags.
  induction (dep_files pre) as [|d ds IH]; simpl; constructor; [|done].
  by destruct Hopt as [-> | ->].
Qed.

Lemma JoinWithPrefix_no_version opt strs prefix :
  opt = "--version-code" \/ opt = "--version-name" ->
  prefix = "-A " \/ prefix = "-S " ->
  strings.HasPrefix (JoinWithPrefix strs prefix) opt = false.
Proof.
  intros Hopt Hprefix.
  destruct (JoinWithPrefix_shape strs prefix) as [-> | [t ->]].
  - by destruct Hopt as [-> | ->].
  - by destruct Hopt as [-> | ->], Hprefix as [-> | ->].
Qed.

(** Among the elements that [aaptFlags] appends, the only ones that start
    with a version option are the defaults, appended when the scan of the
    configured flags found none. *)
Lemma computed_flags_tokens ctx a explicit opt :
  opt = "--version-code" \/ opt = "--version-name" ->
  tokens_of opt (computed_flags ctx a explicit)
  = if has_option opt explicit then [] else [version_default ctx opt].
Proof.
  intros Hopt. unfold computed_flags. rewrite scan_version_spec.
  cbn [fst snd].
  rewrite !tokens_of_app, (dep_flags_no_version opt _ Hopt).
  unfold tokens_of at 1. cbn [List.filter].
  rewrite !(JoinWithPrefix_no_version opt) by auto.
  destruct Hopt as [-> | ->]; unfold version_default; simpl.
  - destruct (has_option "--version-code" explicit),
      (has_option "--version-name" explicit); reflexivity.
  - destruct (has_option "--version-code" explicit),
      (has_option "--version-name" explicit); reflexivity.
Qed.

(** C1.  When the configured flags hold a token that starts with
    [--version-code] (or with [--version-name]), [aaptFlags] returns the
    configured flags followed by elements none of which starts with that
    option: the computed default is not among them, and the tokens of the
    option in the result are exactly the configured ones.  The test is
    made on the configured flags alone. *)
Theorem explicit_version_flags_win ctx a st opt :
  goslice.wf (heap st) (Aaptflags (appProperties a)) ->
  deps_ok ctx ->
  opt = "--version-code" \/ opt = "--version-name" ->
  has_option opt (goslice.view (heap st) (Aaptflags (appProperties a))) = true ->
  exists fl deps hasResources st' rest,
    aaptFlags ctx a st = Some ((fl, deps, hasResources), st') /\
    goslice.view (heap st') fl
    = goslice.view (heap st) (Aaptflags (appProperties a)) ++ rest /\
    tokens_of opt rest = [] /\
    ~ In (version_default ctx opt) rest /\
    tokens_of opt (goslice.view (heap st') fl)
    = tokens_of opt (goslice.view (heap st) (Aaptflags (appProperties a))).
Proof.
  intros Hwf Hok Hopt Hhas.
  destruct (aaptFlags_wp ctx a st Hwf Hok)
    as ([[fl deps] hr] & st' & Hrun & _ & _ & _ & Hgrows).
  cbn [fst snd] in Hgrows.
  pose proof (computed_flags_tokens ctx a
    (goslice.view (heap st) (Aaptflags (appProperties a))) opt Hopt) as Htok.
  rewrite Hhas in Htok.
  exists fl, deps, hr, st', (computed_flags ctx a
    (goslice.view (heap st) (Aaptflags (appProperties a)))).
  split; [done|]. split; [by apply grows_view in Hgrows|].
  split; [done|]. split.
  - intros Hin.
    assert (Hd : In (version_default ctx opt)
                    (tokens_of opt (computed_flags ctx a
                       (goslice.view (heap st) (Aaptflags (appProperties a)))))).
    { apply List.filter_In. split; [done|].
      by destruct Hopt as [-> | ->]. }
    rewrite Htok in Hd. destruct Hd.
  - rewrite (grows_view _ _ _ _ _ Hgrows), tokens_of_app, Htok.
    by rewrite (right_id_L [] (++)).
Qed.

(** The other way round: without a configured token of the option, the
    computed default is the one token of the option in the result. *)
Lemma version_default_appended ctx a st opt :
  goslice.wf (heap st) (Aaptflags (appProperties a)) ->
  deps_ok ctx ->
  opt = "--version-code" \/ opt = "--version-name" ->
  has_option opt (goslice.view (heap st) (Aaptflags (appProperties a))) = false ->
  exists fl deps hasResources st',
    aaptFlags ctx a st = Some ((fl, deps, hasResources), st') /\
    tokens_of opt (goslice.view (heap st') fl) = [version_default ctx opt].
Proof.
  intros Hwf Hok Hopt Hhas.
  destruct (aaptFlags_wp ctx a st Hwf Hok)
    as ([[fl deps] hr] & st' & Hrun & _ & _ & _ & Hgrows).
  cbn [fst snd] in Hgrows.
  exists fl, deps, hr, st'. split; [done|].
  rewrite (grows_view _ _ _ _ _ Hgrows), tokens_of_app.
  rewrite (computed_flags_tokens ctx a _ opt Hopt), Hhas.
  rewrite (tokens_of_none opt); [done|].
  apply List.Forall_forall. intros f Hf.
  apply not_true_is_false. intros Hpre.
  apply not_true_iff_false in Hhas. apply Hhas.
  apply existsb_exists. by exists f.
Qed.

(** Setting the export property to the value it has changes nothing. *)
Lemma set_Export_package_resources_id a :
  set_Export_package_resources (Export_package_resources (appProperties a)) a = a.
Proof. by destruct a as [m [] jl ep]. Qed.

Lemma scan_product_spec fs : scan_product fs = has_option "--product" fs.
Proof.
  induction fs as [|f fs IH]; [done|]. simpl.
  destruct (strings.HasPrefix f "--product"); [done | exact IH].
Qed.

Lemma with_product_spec ctx fs : with_product ctx fs = spec_with_product ctx fs.
Proof. unfold with_product, spec_with_product. by rewrite scan_product_spec. Qed.

(** [filepath.Split] leaves the directory part empty exactly on a path
    without separator. *)
Lemma split_acc_dir pending path :
  fst (filepath.split_acc pending path) = ""
  <-> strings.Contains_byte filepath.Separator path = false.
Proof.
  revert pending. induction path as [|b rest IH]; intros pending; [done|].
  simpl. destruct (Ascii.eqb b filepath.Separator).
  - destruct (filepath.split_acc "" rest) as [dir file]. simpl.
    split; [|done]. intros Hdir. by destruct pending.
  - apply IH.
Qed.

Lemma Split_dir path :
  fst (filepath.Split path) = ""
  <-> strings.Contains_byte filepath.Separator path = false.
Proof. apply split_acc_dir. Qed.

Lemma fold_left_snoc_map {A B} (f : A -> B) xs acc :
  fold_left (fun acc x => acc ++ [f x]) xs acc = acc ++ map f xs.
Proof.
  revert acc. induction xs as [|x xs IH]; intros acc; simpl.
  - by rewrite (right_id_L [] (++)).
  - by rewrite IH, <- (assoc_L (++)).
Qed.

Lemma certificates_of_spec ctx a :
  certificates_of ctx a
  = spec_resolveCertificates
      (Certificate (appProperties a))
      (Additional_certificates (appProperties a))
      (Path_String (DefaultAppCertificate (AConfig ctx)))
      (Path_String (DefaultAppCertificateDir (AConfig ctx)))
      (Path_String (PathForSource ctx)).
Proof.
  unfold certificates_of, spec_resolveCertificates.
  rewrite (fold_left_snoc_map
             (fun c => filepath_Join [Path_String (PathForSource ctx); c])).
  simpl. f_equal.
  destruct (String.eqb_spec (Certificate (appProperties a)) "") as [Heq|Hne].
  - by rewrite decide_True.
  - rewrite decide_False by done.
    destruct (String.eqb_spec (fst (filepath.Split (Certificate (appProperties a)))) "")
      as [Hdir|Hdir].
    + apply Split_dir in Hdir. by rewrite Hdir.
    + destruct (strings.Contains_byte _ _) eqn:Hsep; [done|].
      by apply Split_dir in Hsep.
Qed.

(** C2.  The package builder is handed one certificate list: the primary
    certificate, resolved by the three-way branch on the shape of the
    certificate spec, followed by the additional certificates, each joined
    to the module source root, in configuration order. *)
Theorem certificate_resolution ctx a st :
  goslice.wf (heap st) (Aaptflags (appProperties a)) ->
  deps_ok ctx ->
  exists a' st' new,
    GenerateAndroidBuildActions ctx a st = Some (a', st') /\
    actions st' = actions st ++ new /\
    certificates_used new
    = [spec_resolveCertificates
         (Certificate (appProperties a))
         (Additional_certificates (appProperties a))
         (Path_String (DefaultAppCertificate (AConfig ctx)))
         (Path_String (DefaultAppCertificateDir (AConfig ctx)))
         (Path_String (PathForSource ctx))].
Proof.
  intros Hwf Hok.
  destruct (GenerateAndroidBuildActions_wp ctx a st Hwf Hok)
    as (a' & st' & Hrun & fl & st1 & c1 & c2 & c3 & _ & _ & _ & _ & Hacts & _).
  exists a', st'. eexists. split; [done|]. split; [exact Hacts|].
  unfold certificates_used. rewrite flat_map_app.
  rewrite <- certificates_of_spec.
  unfold resource_actions, package_actions.
  destruct (hasResources_of ctx a), (Export_package_resources (appProperties a));
    reflexivity.
Qed.

Lemma overlay_scan_inner ctx overlayDir resourceDirs acc :
  fold_left
    (fun overlayResourceDirs resourceDir =>
       match OverlayPath overlayDir ctx resourceDir with
       | Some overlay => overlayResourceDirs ++ [overlay]
       | None => overlayResourceDirs
       end)
    resourceDirs acc
  = acc ++ flat_map
             (fun resourceDir =>
                match OverlayPath overlayDir ctx resourceDir with
                | Some overlay => [overlay]
                | None => []
                end)
             resourceDirs.
Proof.
  revert acc. induction resourceDirs as [|d ds IH]; intros acc; simpl.
  - by rewrite (right_id_L [] (++)).
  - rewrite IH. destruct (OverlayPath overlayDir ctx d); simpl.
    + by rewrite <- (assoc_L (++)).
    + done.
Qed.

Lemma overlay_scan_outer ctx resourceDirs roots acc :
  fold_left
    (fun overlayResourceDirs overlayDir =>
       fold_left
         (fun overlayResourceDirs resourceDir =>
            match OverlayPath overlayDir ctx resourceDir with
            | Some overlay => overlayResourceDirs ++ [overlay]
            | None => overlayResourceDirs
            end)
         resourceDirs overlayResourceDirs)
    roots acc
  = acc ++ flat_map
             (fun overlayDir =>
                flat_map
                  (fun resourceDir =>
                     match OverlayPath overlayDir ctx resourceDir with
                     | Some overlay => [overlay]
                     | None => []
                     end)
                  resourceDirs)
             roots.
Proof.
  revert acc. induction roots as [|o roots IH]; intros acc; simpl.
  - by rewrite (right_id_L [] (++)).
  - rewrite overlay_scan_inner, IH. by rewrite <- (assoc_L (++)).
Qed.

Lemma overlay_scan_spec ctx resourceDirs :
  overlay_scan ctx resourceDirs = overlays_of ctx resourceDirs.
Proof. unfold overlay_scan, overlays_of. by rewrite overlay_scan_outer. Qed.

Lemma resourceDirs_of_spec ctx a :
  resourceDirs_of ctx a
  = overlays_of ctx
      (PathsWithOptionalDefaultForModuleSrc ctx
         (Android_resource_dirs (appProperties a)) "res")
    ++ PathsWithOptionalDefaultForModuleSrc ctx
         (Android_resource_dirs (appProperties a)) "res".
Proof.
  unfold resourceDirs_of. rewrite overlay_scan_spec.
  destruct (overlays_of ctx _); reflexivity.
Qed.

(** C3.  The resolved resource directories are the valid overlays of the
    base directories, taken root by root in configuration order, followed
    by the base directories: every overlay stands before every base
    directory.  Without a valid overlay the list is the base list.  The
    asset directories are the configured ones, and the [-A] and [-S] flags
    of [aaptFlags] are built from these two lists. *)
Theorem overlay_precedence ctx a st :
  goslice.wf (heap st) (Aaptflags (appProperties a)) ->
  deps_ok ctx ->
  let base :=
    PathsWithOptionalDefaultForModuleSrc ctx
      (Android_resource_dirs (appProperties a)) "res" in
  let overlays := overlays_of ctx base in
  resourceDirs_of ctx a = overlays ++ base /\
  (forall O R p,
      In O (ResourceOverlays (AConfig ctx)) -> In R base ->
      OverlayPath O ctx R = Some p -> In p overlays) /\
  (forall i p, overlays !! i = Some p -> resourceDirs_of ctx a !! i = Some p) /\
  (forall j R, base !! j = Some R ->
               resourceDirs_of ctx a !! (length overlays + j) = Some R) /\
  (overlays = [] -> resourceDirs_of ctx a = base) /\
  assetDirs_of ctx a
  = PathsWithOptionalDefaultForModuleSrc ctx (Asset_dirs (appProperties a)) "assets" /\
  exists fl deps hasResources st' pre post,
    aaptFlags ctx a st = Some ((fl, deps, hasResources), st') /\
    goslice.view (heap st') fl
    = pre
      ++ [JoinWithPrefix
            (Paths_Strings
               (PathsWithOptionalDefaultForModuleSrc ctx
                  (Asset_dirs (appProperties a)) "assets")) "-A ";
          JoinWithPrefix (Paths_Strings (overlays ++ base)) "-S "]
      ++ post.
Proof.
  intros Hwf Hok base overlays.
  pose proof (resourceDirs_of_spec ctx a) as Hres.
  fold base in Hres. fold overlays in Hres.
  split; [done|]. split.
  { intros O R p HO HR Hp. unfold overlays, overlays_of.
    apply in_flat_map. exists O. split; [done|].
    apply in_flat_map. exists R. split; [done|].
    rewrite Hp. by left. }
  split.
  { intros i p Hi. rewrite Hres. by apply lookup_app_l_Some. }
  split.
  { intros j R Hj. rewrite Hres.
    rewrite lookup_app_r by lia. by replace (length overlays + j - length overlays) with j by lia. }
  split.
  { intros Hnone. by rewrite Hres, Hnone. }
  split; [done|].
  destruct (aaptFlags_wp ctx a st Hwf Hok)
    as ([[fl deps] hr] & st' & Hrun & _ & _ & _ & Hgrows).
  cbn [fst snd] in Hgrows. apply grows_view in Hgrows.
  exists fl, deps, hr, st'.
  exists (goslice.view (heap st) (Aaptflags (appProperties a))
          ++ ["-z"; "-M " +:+ Path_String (manifestPath_of ctx a)]).
  eexists. split; [done|].
  rewrite Hgrows. unfold computed_flags. rewrite Hres.
  rewrite <- !(assoc_L (++)). reflexivity.
Qed.

Lemma glob_resourceDirs_fold ctx dirs acc b :
  fold_left
    (fun '(aaptDeps, hasResources) d =>
       let newDeps := glob_dir ctx d in
       (aaptDeps ++ newDeps,
        if (0 <? length newDeps)%nat then true else hasResources))
    dirs (acc, b)
  = (acc ++ flat_map (glob_dir ctx) dirs,
     b || existsb (fun d => (0 <? length (glob_dir ctx d))%nat) dirs).
Proof.
  revert acc b. induction dirs as [|d ds IH]; intros acc b; simpl.
  - by rewrite (right_id_L [] (++)), orb_false_r.
  - rewrite IH, <- (assoc_L (++)). f_equal.
    destruct (0 <? length (glob_dir ctx d))%nat; simpl; [by rewrite orb_true_r | done].
Qed.

Lemma glob_resourceDirs_spec ctx dirs :
  glob_resourceDirs ctx dirs
  = (flat_map (glob_dir ctx) dirs,
     existsb (fun d => (0 <? length (glob_dir ctx d))%nat) dirs).
Proof. unfold glob_resourceDirs. by rewrite glob_resourceDirs_fold. Qed.

Lemma glob_assetDirs_spec ctx dirs acc :
  glob_assetDirs ctx dirs acc = acc ++ flat_map (glob_dir ctx) dirs.
Proof.
  unfold glob_assetDirs. revert acc.
  induction dirs as [|d ds IH]; intros acc; simpl.
  - by rewrite (right_id_L [] (++)).
  - by rewrite IH, <- (assoc_L (++)).
Qed.

(** C4.  When the glob of every resolved resource directory is empty,
    [aaptFlags] returns [hasResources = false], whatever the asset
    directories hold; the files of the asset directories and the manifest
    path are among the dependencies; and the build actions have no action
    of the resource stage (no R file, public resources, proguard options
    or export package), the module keeping the R-file list and export
    package it had. *)
Theorem no_resources_gating ctx a st :
  goslice.wf (heap st) (Aaptflags (appProperties a)) ->
  deps_ok ctx ->
  (forall d, In d (resourceDirs_of ctx a) ->
             Glob ctx (filepath_Join [Path_String d; "**/*"]) aaptIgnoreFilenames = []) ->
  exists fl deps st1 a' st' new,
    aaptFlags ctx a st = Some ((fl, deps, false), st1) /\
    In (manifestPath_of ctx a) deps /\
    (forall d f,
        In d (assetDirs_of ctx a) ->
        In f (Glob ctx (filepath_Join [Path_String d; "**/*"]) aaptIgnoreFilenames) ->
        In f deps) /\
    GenerateAndroidBuildActions ctx a st = Some (a', st') /\
    actions st' = actions st ++ new /\
    Forall (fun b => is_resource_action b = false) new /\
    aaptJavaFileList a' = aaptJavaFileList a /\
    exportPackage a' = exportPackage a.
Proof.
  intros Hwf Hok Hempty.
  assert (Hhr : hasResources_of ctx a = false).
  { unfold hasResources_of. rewrite glob_resourceDirs_spec. simpl.
    apply not_true_is_false. intros (d & Hd & Hlen)%existsb_exists.
    unfold glob_dir in Hlen. by rewrite (Hempty d Hd) in Hlen. }
  destruct (GenerateAndroidBuildActions_wp ctx a st Hwf Hok)
    as (a' & st' & Hrun & fl & st1 & c1 & c2 & c3
        & Hflags & _ & _ & _ & Hacts & _ & _ & ->).
  rewrite Hhr in Hflags.
  exists fl, (aaptDeps_of ctx a), st1, (final_module ctx a), st'.
  eexists. split; [done|]. split; [|split].
  - unfold aaptDeps_of. apply in_or_app. right. by left.
  - intros d f Hd Hf. unfold aaptDeps_of. apply in_or_app. left.
    rewrite glob_assetDirs_spec. apply in_or_app. right.
    apply in_flat_map. by exists d.
  - split; [done|]. split; [exact Hacts|].
    unfold resource_actions, package_actions, final_module,
      module_after_resources.
    rewrite Hhr. simpl. split; [|done].
    repeat constructor.
Qed.

Lemma dep_flags_no_dir_flag pre :
  Forall (fun f => strings.HasPrefix f "-A " = false /\
                   strings.HasPrefix f "-S " = false)
         (dep_flags pre).
Proof.
  unfold dep_flags. induction (dep_files pre) as [|d ds IH]; simpl; by constructor.
Qed.

(** C5, as the code has it.  The configured flags and [-z] are followed by
    [-M <manifestPath>] and then by two elements, one for the asset
    directories and one for the resource directories: each is a single
    string, the per-directory tokens [-A <dir>] (resp. [-S <dir>]) of the
    resolved directories, in order, separated by a space, and empty when
    there is no directory.  No later element starts with [-A] or [-S]. *)
Theorem dir_flags_joined ctx a st :
  goslice.wf (heap st) (Aaptflags (appProperties a)) ->
  deps_ok ctx ->
  exists fl deps hasResources st' post,
    aaptFlags ctx a st = Some ((fl, deps, hasResources), st') /\
    goslice.view (heap st') fl
    = (goslice.view (heap st) (Aaptflags (appProperties a)) ++ ["-z"])
      ++ ["-M " +:+ Path_String (manifestPath_of ctx a);
          String.concat " "
            (map (fun d => "-A " +:+ Path_String d) (assetDirs_of ctx a));
          String.concat " "
            (map (fun d => "-S " +:+ Path_String d) (resourceDirs_of ctx a))]
      ++ post /\
    Forall (fun f => strings.HasPrefix f "-A " = false /\
                     strings.HasPrefix f "-S " = false) post.
Proof.
  intros Hwf Hok.
  destruct (aaptFlags_wp ctx a st Hwf Hok)
    as ([[fl deps] hr] & st' & Hrun & _ & _ & _ & Hgrows).
  cbn [fst snd] in Hgrows. apply grows_view in Hgrows.
  exists fl, deps, hr, st'.
  eexists. split; [done|]. split.
  - rewrite Hgrows. unfold computed_flags.
    rewrite !JoinWithPrefix_concat. unfold Paths_Strings.
    rewrite !map_map. rewrite <- !(assoc_L (++)). reflexivity.
  - apply Forall_app. split; [apply dep_flags_no_dir_flag|].
    destruct (fst (scan_version _)), (snd (scan_version _)); repeat constructor.
Qed.

Lemma own_arrays_pairs olds c1 c2 c3 :
  own_arrays olds [c1; c2; c3] -> apart c1 c2 /\ apart c1 c3 /\ apart c2 c3.
Proof.
  intros [_ Hp].
  inversion Hp as [|? ? Hfst Hp2]; subst.
  inversion Hp2 as [|? ? Hsnd _]; subst.
  inversion Hfst as [|? ? Hc12 Hfst']; subst.
  inversion Hfst' as [|? ? Hc13 _]; subst.
  inversion Hsnd as [|? ? Hc23 _]; subst.
  done.
Qed.

(** C6.  Take the flags [aaptFlags] returns as the base.  Whether the
    module asks for the export package or not, the package builder reads
    the base flags followed by the product characteristics unless a base
    flag starts with [--product]; the export-package builder, which runs
    when there are resources and the export is asked for, reads the list
    given by the same rule.  Either list is a function of the base flags
    alone, and the slices handed to the builders lie in arrays of their
    own. *)
Theorem product_flag_per_invocation ctx a st :
  goslice.wf (heap st) (Aaptflags (appProperties a)) ->
  deps_ok ctx ->
  exists fl deps hasResources st1,
    aaptFlags ctx a st = Some ((fl, deps, hasResources), st1) /\
    forall export, exists a' st' new,
      GenerateAndroidBuildActions ctx (set_Export_package_resources export a) st
      = Some (a', st') /\
      actions st' = actions st ++ new /\
      appPackage_args new = [spec_with_product ctx (goslice.view (heap st1) fl)] /\
      exportPackage_args new
      = (if hasResources && export
         then [spec_with_product ctx (goslice.view (heap st1) fl)]
         else []) /\
      ForallOrdPairs apart (flag_slices new).
Proof.
  intros Hwf Hok.
  destruct (aaptFlags_wp ctx a st Hwf Hok)
    as ([[fl deps] hr] & st1 & Hrun & _).
  exists fl, deps, hr, st1. split; [done|]. intros export.
  destruct (GenerateAndroidBuildActions_wp ctx
              (set_Export_package_resources export a) st Hwf Hok)
    as (a' & st' & Hrun' & fl' & st1' & c1 & c2 & c3
        & Hflags & _ & _ & _ & Hacts & _ & Hown & _).
  change (aaptFlags ctx (set_Export_package_resources export a) st)
    with (aaptFlags ctx a st) in Hflags.
  rewrite Hrun in Hflags. injection Hflags as -> _ Hhr ->.
  destruct (own_arrays_pairs _ _ _ _ Hown) as (Hc12 & Hc13 & Hc23).
  exists a', st'. eexists. split; [done|]. split; [exact Hacts|].
  unfold appPackage_args, exportPackage_args, flag_slices.
  rewrite !flat_map_app.
  unfold resource_actions, package_actions. rewrite !with_product_spec.
  rewrite <- Hhr. cbn [appProperties set_Export_package_resources
                         Export_package_resources].
  destruct hr, export; simpl; repeat split; repeat constructor; done.
Qed.

Lemma own_arrays_guards olds cs c t :
  own_arrays olds cs -> In c cs -> In t (olds ++ cs) -> goslice.guards c t.
Proof.
  intros [Holds Hcs] Hc Ht. apply in_app_or in Ht as [Ht|Ht].
  - apply apart_guards.
    rewrite List.Forall_forall in Holds. specialize (Holds c Hc).
    rewrite List.Forall_forall in Holds. by apply Holds.
  - destruct (ForallOrdPairs_In Hcs c t Hc Ht) as [-> | [Hct | Htc]].
    + apply guards_refl.
    + by apply apart_guards.
    + by apply apart_guards, apart_sym.
Qed.

Lemma flags_intact_slices h acts :
  Forall (flags_intact h) acts -> Forall (goslice.wf h) (flag_slices acts).
Proof.
  induction 1 as [|b acts Hb _ IH]; [constructor|].
  unfold flag_slices in *. simpl.
  destruct b; simpl; try done; constructor; try done; apply Hb.
Qed.

Lemma flags_intact_guarded h h' acts :
  Forall (flags_intact h) acts ->
  (forall t, In t (flag_slices acts) -> goslice.wf h t ->
             goslice.wf h' t /\ goslice.view h' t = goslice.view h t) ->
  Forall (flags_intact h') acts.
Proof.
  intros Hacts Hkeep. induction Hacts as [|b acts Hb _ IH]; [constructor|].
  constructor.
  - destruct b; simpl in *; try done.
    all: destruct Hb as [Hw <-]; apply Hkeep; [by left | done].
  - apply IH. intros t Ht. apply Hkeep.
    unfold flag_slices in *. simpl. apply in_or_app. by right.
Qed.

(** C7.  Build-action generation leaves the configured flags alone: the
    header [Aaptflags] of the module is the one it was and shows the same
    elements.  The base flags returned by [aaptFlags] still show at the
    end what they showed, and so does every copy handed to a rule
    builder.  Moreover, whatever is appended afterwards to any one of the
    copies, the configured flags, the base flags and all the copies keep
    showing the same elements. *)
Theorem flag_copies_isolated ctx a st :
  goslice.wf (heap st) (Aaptflags (appProperties a)) ->
  deps_ok ctx ->
  exists fl deps hasResources st1 a' st' new,
    aaptFlags ctx a st = Some ((fl, deps, hasResources), st1) /\
    GenerateAndroidBuildActions ctx a st = Some (a', st') /\
    actions st' = actions st ++ new /\
    Aaptflags (appProperties a') = Aaptflags (appProperties a) /\
    goslice.view (heap st') (Aaptflags (appProperties a))
    = goslice.view (heap st) (Aaptflags (appProperties a)) /\
    goslice.view (heap st') fl = goslice.view (heap st1) fl /\
    Forall (flags_intact (heap st')) new /\
    forall c xs c' h'',
      In c (flag_slices new) ->
      goslice.append growslice_slack c xs (heap st') = (c', h'') ->
      goslice.view h'' (Aaptflags (appProperties a))
      = goslice.view (heap st) (Aaptflags (appProperties a)) /\
      goslice.view h'' fl = goslice.view (heap st1) fl /\
      Forall (flags_intact h'') new.
Proof.
  intros Hwf Hok.
  destruct (GenerateAndroidBuildActions_wp ctx a st Hwf Hok)
    as (a' & st' & Hrun & fl & st1 & c1 & c2 & c3
        & Hflags & _ & Hgrows & Hframe & Hacts & Hintact & Hown & ->).
  pose proof (grows_wf _ _ _ _ _ Hgrows) as Hwfl.
  assert (Hcfg1 : goslice.wf (heap st1) (Aaptflags (appProperties a)) /\
                  goslice.view (heap st1) (Aaptflags (appProperties a))
                  = goslice.view (heap st) (Aaptflags (appProperties a))).
  { destruct Hgrows as (_ & _ & _ & _ & Hf).
    destruct (Hf _ Hwf (guards_refl _)) as (? & ? & _). done. }
  destruct Hcfg1 as [Hwcfg1 Hvcfg1].
  assert (Hvcfg : goslice.view (heap st') (Aaptflags (appProperties a))
                  = goslice.view (heap st) (Aaptflags (appProperties a))).
  { rewrite <- Hvcfg1. by apply frame_view. }
  assert (Hvfl : goslice.view (heap st') fl = goslice.view (heap st1) fl)
    by (by apply frame_view).
  assert (Hsub : forall c, In c (flag_slices
      (resource_actions ctx a (goslice.view (heap st1) fl) c1 c2
       ++ package_actions ctx a (goslice.view (heap st1) fl) c3)) ->
      In c [c1; c2; c3]).
  { intros c. unfold flag_slices. rewrite flat_map_app.
    unfold resource_actions, package_actions.
    destruct (hasResources_of ctx a),
      (Export_package_resources (appProperties a)); simpl; tauto. }
  exists fl, (aaptDeps_of ctx a), (hasResources_of ctx a), st1,
    (final_module ctx a), st'.
  eexists. split; [done|]. split; [done|]. split; [exact Hacts|].
  split.
  { unfold final_module, module_after_resources.
    destruct (hasResources_of ctx a),
      (Export_package_resources (appProperties a)) eqn:He; simpl;
      rewrite ?He; reflexivity. }
  split; [done|]. split; [done|]. split; [done|].
  intros c xs c' h'' Hc Happ.
  pose proof (flags_intact_slices _ _ Hintact) as Hwfs.
  rewrite List.Forall_forall in Hwfs.
  pose proof (append_grows _ _ _ _ _ _ (Hwfs c Hc) Happ)
    as (_ & _ & _ & _ & Hkeep).
  assert (Hg : forall t,
             In t ([Aaptflags (appProperties a); fl] ++ [c1; c2; c3]) ->
             goslice.guards c t).
  { intros t Ht. eapply own_arrays_guards; [exact Hown | by apply Hsub | done]. }
  split; [|split].
  - destruct (Hkeep (Aaptflags (appProperties a))) as (_ & Hv & _).
    + by eapply frame_wf.
    + apply Hg. by left.
    + congruence.
  - destruct (Hkeep fl) as (_ & Hv & _).
    + by eapply frame_wf.
    + apply Hg. right. by left.
    + congruence.
  - eapply flags_intact_guarded; [exact Hintact|].
    intros t Ht Hwt. destruct (Hkeep t Hwt) as (? & ? & _); [|done].
    apply Hg. apply in_or_app. right. by apply Hsub.
Qed.

(** C8.  The flags hold [--min-sdk-version v] and [--target-sdk-version v]
    for one and the same [v]: the declared SDK version of the module, or
    the platform SDK version when none is declared. *)
Theorem sdk_version_flags ctx a st :
  goslice.wf (heap st) (Aaptflags (appProperties a)) ->
  deps_ok ctx ->
  exists fl deps hasResources st' v,
    aaptFlags ctx a st = Some ((fl, deps, hasResources), st') /\
    (Sdk_version (deviceProperties (Module_ a)) <> "" ->
     v = Sdk_version (deviceProperties (Module_ a))) /\
    (Sdk_version (deviceProperties (Module_ a)) = "" ->
     v = PlatformSdkVersion (AConfig ctx)) /\
    In ("--min-sdk-version " +:+ v) (goslice.view (heap st') fl) /\
    In ("--target-sdk-version " +:+ v) (goslice.view (heap st') fl).
Proof.
  intros Hwf Hok.
  destruct (aaptFlags_wp ctx a st Hwf Hok)
    as ([[fl deps] hr] & st' & Hrun & _ & _ & _ & Hgrows).
  cbn [fst snd] in Hgrows. apply grows_view in Hgrows.
  exists fl, deps, hr, st', (sdkVersion_of ctx a).
  split; [done|]. unfold sdkVersion_of at 1 2.
  destruct (String.eqb_spec (Sdk_version (deviceProperties (Module_ a))) "")
    as [Heq|Hne].
  - split; [done|]. split; [done|].
    rewrite Hgrows. unfold computed_flags.
    split; apply in_or_app; right; simpl; do 4 right; apply in_or_app; right;
      simpl; auto.
  - split; [done|]. split; [done|].
    rewrite Hgrows. unfold computed_flags.
    split; apply in_or_app; right; simpl; do 4 right; apply in_or_app; right;
      simpl; auto.
Qed.

(** C9.  [aaptFlags] always has a manifest path, the module-source path of
    the [Manifest] property or, when that is unset, of
    [AndroidManifest.xml]; the path is among the dependencies and the
    flags hold [-M <manifestPath>]. *)
Theorem manifest_always_present ctx a st :
  goslice.wf (heap st) (Aaptflags (appProperties a)) ->
  deps_ok ctx ->
  exists fl deps hasResources st' manifestPath,
    aaptFlags ctx a st = Some ((fl, deps, hasResources), st') /\
    manifestPath
    = PathForModuleSrc ctx
        (default "AndroidManifest.xml" (Manifest (properties (Module_ a)))) /\
    In manifestPath deps /\
    In ("-M " +:+ Path_String manifestPath) (goslice.view (heap st') fl).
Proof.
  intros Hwf Hok.
  destruct (aaptFlags_wp ctx a st Hwf Hok)
    as ([[fl deps] hr] & st' & Hrun & Hdeps & _ & _ & Hgrows).
  cbn [fst snd] in Hdeps, Hgrows. apply grows_view in Hgrows.
  exists fl, deps, hr, st', (manifestPath_of ctx a).
  split; [done|]. split.
  { unfold manifestPath_of. by destruct (Manifest (properties (Module_ a))). }
  split.
  - rewrite Hdeps. unfold aaptDeps_of. apply in_or_app. right. by left.
  - rewrite Hgrows. unfold computed_flags. apply in_or_app. right.
    right. by left.
Qed.

(** C10.  [DepsMutator] adds, after the dependencies of the embedded
    module, the dependency on [framework-res] exactly when the module does
    not set [No_standard_libraries] and its [Sdk_version] is [current],
    [system_current] or empty; otherwise it adds nothing. *)
Theorem framework_res_dependency a ctx :
  added (DepsMutator a ctx)
  = added (Module_deps (Module_ a) ctx)
    ++ (if decide (No_standard_libraries (properties (Module_ a)) = false /\
                   (Sdk_version (deviceProperties (Module_ a)) = "current" \/
                    Sdk_version (deviceProperties (Module_ a)) = "system_current" \/
                    Sdk_version (deviceProperties (Module_ a)) = ""))
        then [(frameworkResTag, "framework-res")]
        else []).
Proof.
  unfold DepsMutator. case_decide as Hd.
  - destruct Hd as [-> Hv]. cbn [negb].
    by destruct Hv as [-> | [-> | ->]].
  - destruct (No_standard_libraries (properties (Module_ a))); cbn [negb].
    { by rewrite (right_id_L [] (++)). }
    destruct (String.eqb_spec (Sdk_version (deviceProperties (Module_ a))) "current")
      as [Hc|Hc]; [destruct Hd; auto|].
    destruct (String.eqb_spec (Sdk_version (deviceProperties (Module_ a))) "system_current")
      as [Hs|Hs]; [destruct Hd; auto|].
    destruct (String.eqb_spec (Sdk_version (deviceProperties (Module_ a))) "")
      as [He|He]; [destruct Hd; auto|].
    cbn [orb]. by rewrite (right_id_L [] (++)).
Qed.

End app_go_properties.

(** ** Further properties of the runs *)

Section app_go_further.

Context `{!GoRuntime, !GoFilepath, !AndroidPaths, !JavaPackage}.

Lemma depFiles_of_None module :
  depFiles_of module = None <-> visitor_panics module.
Proof.
  unfold depFiles_of, visitor_panics.
  destruct (as_sdkDependency module) as [files|];
    [split; [done | by intros [? _]]|].
  destruct (is_Dependency module);
    [|split; [done | by intros (_ & ? & _)]].
  destruct (String.eqb_spec (OtherModuleName module) "framework-res") as [Hn|Hn];
    [|split; [done | by intros (_ & _ & ? & _)]].
  destruct (as_AndroidApp module) as [app|]; [|split; [intros _|done]; auto].
  destruct (exportPackage app) as [p|] eqn:Hp.
  - split; [done|]. intros (_ & _ & _ & [?|(app' & [= <-] & ?)]); congruence.
  - split; [intros _|done]. repeat split; try done. right. by exists app.
Qed.

Lemma deps_ok_or_panics ctx :
  deps_ok ctx \/ Exists visitor_panics (DirectDeps ctx).
Proof.
  unfold deps_ok. induction (DirectDeps ctx) as [|module deps IH];
    [left; constructor|].
  destruct (depFiles_of module) as [files|] eqn:Hd.
  - destruct IH as [IH|IH]; [left | right; by apply Exists_cons_tl].
    constructor; [by eexists | done].
  - right. apply Exists_cons_hd. by apply depFiles_of_None.
Qed.

Lemma deps_ok_no_panics ctx :
  deps_ok ctx -> ~ Exists visitor_panics (DirectDeps ctx).
Proof.
  unfold deps_ok. intros Hok Hex. apply List.Exists_exists in Hex.
  destruct Hex as (module & Hin & Hp). apply depFiles_of_None in Hp.
  rewrite List.Forall_forall in Hok. destruct (Hok module Hin) as [files Hf].
  congruence.
Qed.

Lemma visit_deps_panics deps acc st :
  Exists visitor_panics deps -> for_range visit_dep deps acc st = None.
Proof.
  intros Hex. revert acc st.
  induction Hex as [module deps Hp|module deps Hex IH]; intros [fl ds] st.
  - apply depFiles_of_None in Hp.
    change (for_range visit_dep (module :: deps) (fl, ds) st)
      with (match visit_dep (fl, ds) module st with
            | Some (acc', st') => for_range visit_dep deps acc' st'
            | None => None
            end).
    unfold visit_dep, mbind, M_bind. by rewrite Hp.
  - change (for_range visit_dep (module :: deps) (fl, ds) st)
      with (match visit_dep (fl, ds) module st with
            | Some (acc', st') => for_range visit_dep deps acc' st'
            | None => None
            end).
    destruct (visit_dep (fl, ds) module st) as [[acc' st']|]; [apply IH | done].
Qed.

Lemma aaptFlags_panics ctx a st :
  Exists visitor_panics (DirectDeps ctx) -> aaptFlags ctx a st = None.
Proof.
  intros Hex. unfold aaptFlags, mbind, M_bind, read.
  destruct (scan_version _) as [c n].
  unfold append at 1. destruct (goslice.append _ _ _ _) as [s1 h1].
  destruct (glob_resourceDirs _ _) as [ds hr].
  unfold append at 1. destruct (goslice.append _ _ _ _) as [s2 h2].
  unfold append at 1. destruct (goslice.append _ _ _ _) as [s3 h3].
  unfold append at 1. destruct (goslice.append _ _ _ _) as [s4 h4].
  by rewrite visit_deps_panics.
Qed.

Lemma run_panics ctx a st :
  Exists visitor_panics (DirectDeps ctx) ->
  GenerateAndroidBuildActions ctx a st = None.
Proof.
  intros Hex. unfold GenerateAndroidBuildActions, mbind, M_bind.
  by rewrite aaptFlags_panics.
Qed.

(** X1.  [aaptFlags] panics exactly when some direct dependency is a
    [Dependency] named [framework-res] that does not implement
    [sdkDependency] and is not an [*AndroidApp] with an export package;
    [GenerateAndroidBuildActions] panics in exactly the same case, so that
    no build action is registered. *)
Theorem visitor_panic_iff ctx a st :
  goslice.wf (heap st) (Aaptflags (appProperties a)) ->
  (aaptFlags ctx a st = None <-> Exists visitor_panics (DirectDeps ctx)) /\
  (GenerateAndroidBuildActions ctx a st = None
   <-> Exists visitor_panics (DirectDeps ctx)).
Proof.
  intros Hwf. split; (split; [|by auto using aaptFlags_panics, run_panics]).
  - intros Hnone. destruct (deps_ok_or_panics ctx) as [Hok|Hex]; [|done].
    destruct (aaptFlags_wp ctx a st Hwf Hok) as (r & st' & Hrun & _). congruence.
  - intros Hnone. destruct (deps_ok_or_panics ctx) as [Hok|Hex]; [|done].
    destruct (GenerateAndroidBuildActions_wp ctx a st Hwf Hok)
      as (r & st' & Hrun & _). congruence.
Qed.

(** X2.  The flags [aaptFlags] returns, in full: the configured flags,
    [-z], the manifest, the joined asset and resource directories, one [-I]
    per file of the direct dependencies in visiting order, the two SDK
    versions, and then the version code and the version name defaults, each
    only when no configured flag starts with its option.  No action is
    registered. *)
Theorem aaptFlags_layout ctx a st :
  goslice.wf (heap st) (Aaptflags (appProperties a)) ->
  deps_ok ctx ->
  exists fl deps hasResources st',
    aaptFlags ctx a st = Some ((fl, deps, hasResources), st') /\
    actions st' = actions st /\
    let explicit := goslice.view (heap st) (Aaptflags (appProperties a)) in
    goslice.view (heap st') fl
    = explicit
      ++ ["-z";
          "-M " +:+ Path_String (manifestPath_of ctx a);
          JoinWithPrefix (Paths_Strings (assetDirs_of ctx a)) "-A ";
          JoinWithPrefix (Paths_Strings (resourceDirs_of ctx a)) "-S "]
      ++ map (fun dep => "-I " +:+ Path_String dep) (dep_files (DirectDeps ctx))
      ++ ["--min-sdk-version " +:+ sdkVersion_of ctx a;
          "--target-sdk-version " +:+ sdkVersion_of ctx a]
      ++ (if has_option "--version-code" explicit then []
          else ["--version-code " +:+ PlatformSdkVersion (AConfig ctx)])
      ++ (if has_option "--version-name" explicit then []
          else ["--version-name " +:+ PlatformVersion (AConfig ctx) +:+ "-"
                  +:+ BuildNumber (AConfig ctx)]).
Proof.
  intros Hwf Hok.
  destruct (aaptFlags_wp ctx a st Hwf Hok)
    as ([[fl deps] hr] & st' & Hrun & _ & _ & Hact & Hgrows).
  cbn [fst snd] in Hgrows. apply grows_view in Hgrows.
  exists fl, deps, hr, st'. split; [done|]. split; [done|].
  cbn zeta. rewrite Hgrows. unfold computed_flags.
  by rewrite scan_version_spec.
Qed.

(** X3.  The dependency files [aaptFlags] returns, in full: the files of
    the resolved resource directories (overlays first), the files of the
    asset directories, the manifest, and the files of the direct
    dependencies; every directory is globbed with the pattern [**/*] under
    it and the fixed list of ignored names. *)
Theorem aaptDeps_layout ctx a st :
  goslice.wf (heap st) (Aaptflags (appProperties a)) ->
  deps_ok ctx ->
  exists fl deps hasResources st',
    aaptFlags ctx a st = Some ((fl, deps, hasResources), st') /\
    deps
    = flat_map
        (fun d => Glob ctx (filepath_Join [Path_String d; "**/*"])
                    [".svn"; ".git"; ".ds_store"; "*.scc"; ".*"; "CVS";
                     "thumbs.db"; "picasa.ini"; "*~"])
        (resourceDirs_of ctx a ++ assetDirs_of ctx a)
      ++ [manifestPath_of ctx a]
      ++ dep_files (DirectDeps ctx).
Proof.
  intros Hwf Hok.
  destruct (aaptFlags_wp ctx a st Hwf Hok)
    as ([[fl deps] hr] & st' & Hrun & Hdeps & _).
  cbn [fst snd] in Hdeps.
  exists fl, deps, hr, st'. split; [done|].
  rewrite Hdeps. unfold aaptDeps_of.
  rewrite glob_assetDirs_spec, glob_resourceDirs_spec. cbn [fst].
  rewrite flat_map_app. reflexivity.
Qed.

(** X4.  [hasResources] is true exactly when the glob of some resolved
    resource directory, overlays included, finds a file; the files of the
    asset directories do not count. *)
Theorem hasResources_iff ctx a st :
  goslice.wf (heap st) (Aaptflags (appProperties a)) ->
  deps_ok ctx ->
  exists fl deps hasResources st',
    aaptFlags ctx a st = Some ((fl, deps, hasResources), st') /\
    (hasResources = true <->
     exists d, In d (resourceDirs_of ctx a) /\
               Glob ctx (filepath_Join [Path_String d; "**/*"]) aaptIgnoreFilenames
               <> []).
Proof.
  intros Hwf Hok.
  destruct (aaptFlags_wp ctx a st Hwf Hok)
    as ([[fl deps] hr] & st' & Hrun & _ & Hhr & _).
  cbn [fst snd] in Hhr.
  exists fl, deps, hr, st'. split; [done|].
  rewrite Hhr. unfold hasResources_of. rewrite glob_resourceDirs_spec. cbn [snd].
  rewrite existsb_exists. unfold glob_dir.
  split; intros (d & Hd & Hg); exists d; (split; [done|]).
  - intros Hnil. by rewrite Hnil in Hg.
  - destruct (Glob ctx _ _); [done | reflexivity].
Qed.

Lemma computed_flags_no_product ctx a explicit :
  has_option "--product" (computed_flags ctx a explicit) = false.
Proof.
  unfold has_option, computed_flags.
  rewrite !existsb_app. cbn [existsb].
  assert (Hdeps : existsb (fun f => strings.HasPrefix f "--product")
                          (dep_flags (DirectDeps ctx)) = false).
  { unfold dep_flags. induction (dep_files _) as [|d ds IH]; [done|]. exact IH. }
  rewrite Hdeps.
  destruct (JoinWithPrefix_shape (Paths_Strings (assetDirs_of ctx a)) "-A ")
    as [-> | [t1 ->]];
  destruct (JoinWithPrefix_shape (Paths_Strings (resourceDirs_of ctx a)) "-S ")
    as [-> | [t2 ->]];
  destruct (fst (scan_version explicit)), (snd (scan_version explicit));
  reflexivity.
Qed.

(** X5.  The package builder reads the flags of [aaptFlags] followed by
    [--product <characteristics>] exactly when no configured flag starts
    with [--product]; otherwise it reads the flags of [aaptFlags] as they
    are: no flag that [aaptFlags] computes can stand for a product. *)
Theorem product_iff_not_configured ctx a st :
  goslice.wf (heap st) (Aaptflags (appProperties a)) ->
  deps_ok ctx ->
  exists fl deps hasResources st1 a' st' new,
    aaptFlags ctx a st = Some ((fl, deps, hasResources), st1) /\
    GenerateAndroidBuildActions ctx a st = Some (a', st') /\
    actions st' = actions st ++ new /\
    appPackage_args new
    = [if has_option "--product"
            (goslice.view (heap st) (Aaptflags (appProperties a)))
       then goslice.view (heap st1) fl
       else goslice.view (heap st1) fl
            ++ ["--product " +:+ ProductAaptCharacteristics (AConfig ctx)]].
Proof.
  intros Hwf Hok.
  destruct (GenerateAndroidBuildActions_wp ctx a st Hwf Hok)
    as (a' & st' & Hrun & fl & st1 & c1 & c2 & c3
        & Hflags & _ & Hgrows & _ & Hacts & _).
  exists fl, (aaptDeps_of ctx a), (hasResources_of ctx a), st1, a', st'.
  eexists. split; [done|]. split; [done|]. split; [exact Hacts|].
  unfold appPackage_args. rewrite !flat_map_app.
  assert (Hres : flat_map
            (fun b => match b with AppPackage _ args _ _ => [args] | _ => [] end)
            (resource_actions ctx a (goslice.view (heap st1) fl) c1 c2) = []).
  { unfold resource_actions.
    destruct (hasResources_of ctx a), (Export_package_resources (appProperties a));
      reflexivity. }
  rewrite Hres. unfold package_actions. cbn [flat_map app].
  rewrite with_product_spec. unfold spec_with_product.
  rewrite (grows_view _ _ _ _ _ Hgrows) at 1.
  unfold has_option at 1. rewrite existsb_app.
  fold (has_option "--product" (goslice.view (heap st) (Aaptflags (appProperties a)))).
  fold (has_option "--product" (computed_flags ctx a
          (goslice.view (heap st) (Aaptflags (appProperties a))))).
  rewrite computed_flags_no_product, orb_false_r. reflexivity.
Qed.

(** X6.  The resource stage.  When there are resources, the first action
    of the run is the rule for the resource sources, which reads the flags
    exactly as [aaptFlags] returned them (no product is added) and all the
    dependency files; the export package and its check-build registration
    follow exactly when the export is asked for, then the check-build
    registrations of the three outputs of the first rule, and only then
    the actions of the package stage. *)
Theorem resource_stage ctx a st :
  goslice.wf (heap st) (Aaptflags (appProperties a)) ->
  deps_ok ctx ->
  hasResources_of ctx a = true ->
  exists fl deps st1 a' st' c1 c2 args package,
    aaptFlags ctx a st = Some ((fl, deps, true), st1) /\
    GenerateAndroidBuildActions ctx a st = Some (a', st') /\
    actions st'
    = actions st
      ++ [ResourceJavaFiles c1 (goslice.view (heap st1) fl) deps]
      ++ (if Export_package_resources (appProperties a)
          then [ExportPackage c2 args deps;
                CheckbuildFile (exportPackage_output ctx)]
          else [])
      ++ [CheckbuildFile (fst (fst (resourceJavaFiles_outputs ctx)));
          CheckbuildFile (snd (fst (resourceJavaFiles_outputs ctx)));
          CheckbuildFile (snd (resourceJavaFiles_outputs ctx))]
      ++ package /\
    forallb (fun b => negb (is_resource_action b)) package = true.
Proof.
  intros Hwf Hok Hres.
  destruct (GenerateAndroidBuildActions_wp ctx a st Hwf Hok)
    as (a' & st' & Hrun & fl & st1 & c1 & c2 & c3
        & Hflags & _ & _ & _ & Hacts & _).
  rewrite Hres in Hflags.
  exists fl, (aaptDeps_of ctx a), st1, a', st', c1, c2,
    (with_product ctx (goslice.view (heap st1) fl)),
    (package_actions ctx a (goslice.view (heap st1) fl) c3).
  split; [done|]. split; [done|]. split; [|reflexivity].
  rewrite Hacts. unfold resource_actions. rewrite Hres.
  by rewrite <- !(assoc_L (++)).
Qed.

(** X7.  The package stage: the run ends with the compilation of the
    embedded Java module, the application package and the installation, in
    this order, after actions of the resource stage only.  The module is
    compiled with its manifest cleared and with the list of generated
    resource sources added to its extra sources exactly when there are
    resources; the package is built from the output of that compilation,
    and its own output, installed as [<name>.apk] under [app], becomes the
    output file of the module. *)
Theorem package_stage ctx a st :
  goslice.wf (heap st) (Aaptflags (appProperties a)) ->
  deps_ok ctx ->
  exists a' st' pre m_in c args,
    GenerateAndroidBuildActions ctx a st = Some (a', st') /\
    actions st'
    = actions st ++ pre
      ++ [Compile (Module_compile ctx m_in);
          AppPackage c args (outputFile (Module_compile ctx m_in))
                     (certificates_of ctx a);
          InstallFileName (PathForModuleInstall ctx "app")
                          (ModuleName ctx +:+ ".apk") (appPackage_output ctx)] /\
    forallb is_resource_action pre = true /\
    Manifest (properties m_in) = None /\
    No_standard_libraries (properties m_in)
    = No_standard_libraries (properties (Module_ a)) /\
    deviceProperties m_in = deviceProperties (Module_ a) /\
    outputFile m_in = outputFile (Module_ a) /\
    ExtraSrcLists m_in
    = ExtraSrcLists (Module_ a)
      ++ (if hasResources_of ctx a then [snd (resourceJavaFiles_outputs ctx)]
          else []) /\
    Module_ a' = set_outputFile (Some (appPackage_output ctx))
                                (Module_compile ctx m_in).
Proof.
  intros Hwf Hok.
  destruct (GenerateAndroidBuildActions_wp ctx a st Hwf Hok)
    as (a' & st' & Hrun & fl & st1 & c1 & c2 & c3
        & _ & _ & _ & _ & Hacts & _ & _ & ->).
  exists (final_module ctx a), st',
    (resource_actions ctx a (goslice.view (heap st1) fl) c1 c2),
    (set_Manifest None (Module_ (module_after_resources ctx a))),
    c3, (with_product ctx (goslice.view (heap st1) fl)).
  split; [done|]. split; [exact Hacts|].
  unfold final_module, compiled_Module, resource_actions, module_after_resources.
  destruct (hasResources_of ctx a);
    [destruct (Export_package_resources (appProperties a)) eqn:Hexp|];
    cbn; rewrite ?Hexp; cbn; rewrite ?(right_id_L [] (++)); done.
Qed.

Lemma final_module_fields ctx a :
  appProperties (final_module ctx a) = appProperties a /\
  aaptJavaFileList (final_module ctx a)
  = (if hasResources_of ctx a then Some (snd (resourceJavaFiles_outputs ctx))
     else aaptJavaFileList a) /\
  exportPackage (final_module ctx a)
  = (if hasResources_of ctx a && Export_package_resources (appProperties a)
     then Some (exportPackage_output ctx)
     else exportPackage a).
Proof.
  unfold final_module, module_after_resources.
  destruct (hasResources_of ctx a);
    [destruct (Export_package_resources (appProperties a)) eqn:Hexp|];
    cbn; rewrite ?Hexp; done.
Qed.

(** X8.  What the run changes in the application besides its embedded Java
    module: the properties are never written; the list of generated
    resource sources is set exactly when there are resources, and the
    export package exactly when there are resources and the export is
    asked for. *)
Theorem app_fields_after_run ctx a st :
  goslice.wf (heap st) (Aaptflags (appProperties a)) ->
  deps_ok ctx ->
  exists a' st',
    GenerateAndroidBuildActions ctx a st = Some (a', st') /\
    appProperties a' = appProperties a /\
    aaptJavaFileList a'
    = (if hasResources_of ctx a then Some (snd (resourceJavaFiles_outputs ctx))
       else aaptJavaFileList a) /\
    exportPackage a'
    = (if hasResources_of ctx a && Export_package_resources (appProperties a)
       then Some (exportPackage_output ctx)
       else exportPackage a).
Proof.
  intros Hwf Hok.
  destruct (GenerateAndroidBuildActions_wp ctx a st Hwf Hok)
    as (a' & st' & Hrun & fl & st2 & c1 & c2 & c3
        & _ & _ & _ & _ & _ & _ & _ & ->).
  exists (final_module ctx a), st'. split; [done|]. apply final_module_fields.
Qed.

Lemma dep_files_In module files p deps :
  In module deps -> depFiles_of module = Some files -> In p files ->
  In p (dep_files deps).
Proof.
  intros Hin Hfiles Hp. unfold dep_files. apply in_flat_map.
  exists module. split; [done|]. by rewrite Hfiles.
Qed.

(** X9.  The platform resources and their users.  Let [fr'] be the module
    that [GenerateAndroidBuildActions] returns for a module [fr] without
    export package, and let an application have [fr'] among its direct
    dependencies under the name [framework-res].  If [fr] has resources and
    asks for the export package, the flags of the application include that
    package with [-I] and its dependency files contain it; otherwise
    [aaptFlags] panics on the application, which gets no build action. *)
Theorem framework_res_export_chain ctx fr st fr' module ctx2 b st2 :
  goslice.wf (heap st) (Aaptflags (appProperties fr)) ->
  fst <$> GenerateAndroidBuildActions ctx fr st = Some fr' ->
  exportPackage fr = None ->
  as_sdkDependency module = None ->
  is_Dependency module = true ->
  OtherModuleName module = "framework-res" ->
  as_AndroidApp module = Some fr' ->
  In module (DirectDeps ctx2) ->
  goslice.wf (heap st2) (Aaptflags (appProperties b)) ->
  if hasResources_of ctx fr && Export_package_resources (appProperties fr)
  then deps_ok ctx2 ->
       exists fl deps hasResources st2',
         aaptFlags ctx2 b st2 = Some ((fl, deps, hasResources), st2') /\
         In ("-I " +:+ Path_String (exportPackage_output ctx))
            (goslice.view (heap st2') fl) /\
         In (exportPackage_output ctx) deps
  else aaptFlags ctx2 b st2 = None /\
       GenerateAndroidBuildActions ctx2 b st2 = None.
Proof.
  intros Hwf Hrun Hnone Hsdk Hdep Hname Happ Hin Hwf2.
  assert (Hfr : fr' = final_module ctx fr).
  { destruct (deps_ok_or_panics ctx) as [Hok|Hex];
      [|by rewrite (run_panics ctx fr st Hex) in Hrun].
    destruct (GenerateAndroidBuildActions_wp ctx fr st Hwf Hok)
      as (a1 & st1 & Hrun1 & fl & st2' & c1 & c2 & c3
          & _ & _ & _ & _ & _ & _ & _ & ->).
    rewrite Hrun1 in Hrun. by injection Hrun as <-. }
  destruct (final_module_fields ctx fr) as (_ & _ & Hexp).
  rewrite <- Hfr in Hexp.
  destruct (hasResources_of ctx fr && Export_package_resources (appProperties fr)).
  - intros Hok2.
    assert (Hfiles : depFiles_of module = Some [exportPackage_output ctx]).
    { unfold depFiles_of. by rewrite Hsdk, Hdep, Hname, Happ, Hexp. }
    assert (Hp : In (exportPackage_output ctx) (dep_files (DirectDeps ctx2))).
    { eapply dep_files_In; [done | done | by left]. }
    destruct (aaptFlags_wp ctx2 b st2 Hwf2 Hok2)
      as ([[fl deps] hr] & st2' & Hrun2 & Hdeps & _ & _ & Hgrows).
    cbn [fst snd] in Hdeps, Hgrows.
    exists fl, deps, hr, st2'. split; [done|]. split.
    + rewrite (grows_view _ _ _ _ _ Hgrows). unfold computed_flags, dep_flags.
      apply in_or_app. right. apply in_or_app. right. apply in_or_app. left.
      by apply (in_map (fun dep => "-I " +:+ Path_String dep)).
    + rewrite Hdeps. unfold aaptDeps_of.
      apply in_or_app. right. apply in_or_app. by right.
  - assert (Hex : Exists visitor_panics (DirectDeps ctx2)).
    { apply List.Exists_exists. exists module. split; [done|].
      repeat split; try done. right. exists fr'. split; [done|]. congruence. }
    split; [by apply aaptFlags_panics | by apply run_panics].
Qed.

(** The run of [aaptFlags] from its first [append] on. *)
Lemma aaptFlags_first_append ctx a st :
  goslice.wf (heap st) (Aaptflags (appProperties a)) ->
  deps_ok ctx ->
  exists fl1 h1 r st1 rest,
    goslice.append growslice_slack (Aaptflags (appProperties a)) ["-z"] (heap st)
    = (fl1, h1) /\
    aaptFlags ctx a st = Some (r, st1) /\
    grows h1 fl1 (heap st1) (fst (fst r)) rest.
Proof.
  intros Hwf Hok.
  destruct (goslice.append growslice_slack (Aaptflags (appProperties a)) ["-z"]
              (heap st)) as [fl1 h1] eqn:Happ.
  exists fl1, h1.
  cut (wp (aaptFlags ctx a)
          (fun r st1 => exists rest, grows h1 fl1 (heap st1) (fst (fst r)) rest) st).
  { intros (r & st1 & Hrun & rest & Hg). by exists r, st1, rest. }
  pose proof (append_grows _ _ _ _ _ _ Hwf Happ) as Hfirst.
  pose proof (grows_refl _ _ (grows_wf _ _ _ _ _ Hfirst)) as Hacc.
  unfold aaptFlags. apply wp_bind, wp_read.
  destruct (scan_version _) as [hasVersionCode hasVersionName]. simpl.
  destruct (glob_resourceDirs _ _) as [aaptDeps hasResources]. simpl.
  apply wp_bind.
  exists fl1, (State h1 (actions st)).
  split; [unfold append; by rewrite Happ|].
  change h1 with (heap (State h1 (actions st))) in Hacc at 2.
  eapply wp_append_step; [exact Hacc|]. clear Hacc. intros fl2 st2 Hact2 Hacc.
  eapply wp_append_step; [exact Hacc|]. clear Hacc. intros fl3 st3 Hact3 Hacc.
  eapply wp_append_step; [exact Hacc|]. clear Hacc. intros fl4 st4 Hact4 Hacc.
  apply wp_bind. eapply wp_mono; [by eapply wp_visit_deps|].
  clear Hacc. intros [fl5 deps5] st5 (Hact5 & Hdeps & Hacc). simpl in Hdeps, Hacc.
  eapply wp_append_step; [exact Hacc|]. clear Hacc. intros fl6 st6 Hact6 Hacc.
  eapply wp_append_step; [exact Hacc|]. clear Hacc. intros fl7 st7 Hact7 Hacc.
  destruct hasVersionCode, hasVersionName; simpl.
  - apply wp_bind, wp_ret, wp_bind, wp_ret, wp_ret. by eexists.
  - apply wp_bind, wp_ret.
    eapply wp_append_step; [exact Hacc|]. clear Hacc. intros fl8 st8 Hact8 Hacc.
    apply wp_ret. by eexists.
  - eapply wp_append_step; [exact Hacc|]. clear Hacc. intros fl8 st8 Hact8 Hacc.
    apply wp_bind, wp_ret, wp_ret. by eexists.
  - eapply wp_append_step; [exact Hacc|]. clear Hacc. intros fl8 st8 Hact8 Hacc.
    eapply wp_append_step; [exact Hacc|]. clear Hacc. intros fl9 st9 Hact9 Hacc.
    apply wp_ret. by eexists.
Qed.

(** An allocation leaves every slice of the store as it was. *)
Lemma frame_alloc (h : list (list string)) arr : frame h (h ++ [arr]).
Proof.
  split; [rewrite length_app; lia|].
  intros t [Hle Ht]. unfold goslice.wf, goslice.view.
  destruct (ptr t) as [p|]; [|done].
  destruct Ht as (arr0 & Harr & Hb).
  rewrite (lookup_app_l_Some _ _ _ _ Harr), Harr. eauto.
Qed.

(** X10.  When the configured flags fill their capacity (the slice is nil,
    or its length equals its capacity), the first [append] of [aaptFlags]
    moves them to a new array, and the whole run leaves every slice of the
    store it started from showing what it showed: no cell that existed is
    written. *)
Theorem full_capacity_store_kept ctx a st :
  goslice.wf (heap st) (Aaptflags (appProperties a)) ->
  deps_ok ctx ->
  len (Aaptflags (appProperties a)) = cap (Aaptflags (appProperties a)) ->
  exists a' st',
    GenerateAndroidBuildActions ctx a st = Some (a', st') /\
    frame (heap st) (heap st').
Proof.
  intros Hwf Hok Hfull.
  destruct (GenerateAndroidBuildActions_wp ctx a st Hwf Hok)
    as (a' & st' & Hrun & fl & st1 & c1 & c2 & c3
        & Hflags & _ & _ & Hframe & _).
  exists a', st'. split; [done|].
  destruct (aaptFlags_first_append ctx a st Hwf Hok)
    as (fl1 & h1 & r & st1' & rest & Happ & Hrun1 & Hg).
  rewrite Hflags in Hrun1. injection Hrun1 as <- <-. cbn [fst] in Hg.
  unfold goslice.append in Happ.
  destruct (Nat.leb_spec (len (Aaptflags (appProperties a)) + length ["-z"])
              (cap (Aaptflags (appProperties a)))) as [Hfit|_];
    [simpl in Hfit; lia|].
  injection Happ as <- <-.
  eapply frame_trans; [|exact Hframe].
  destruct Hg as (_ & _ & Hlen & _ & Hkeep).
  destruct (frame_alloc (heap st)
              (goslice.view (heap st) (Aaptflags (appProperties a)) ++ ["-z"]
               ++ replicate
                    (len (Aaptflags (appProperties a)) + length ["-z"]
                     + growslice_slack (cap (Aaptflags (appProperties a)))
                         (len (Aaptflags (appProperties a)) + length ["-z"])
                     - (len (Aaptflags (appProperties a)) + length ["-z"])) ""))
    as [_ Halloc].
  split; [rewrite length_app in Hlen; lia|]. intros t Ht.
  destruct (Halloc t Ht) as [Hwt1 Hvt1].
  destruct (Hkeep t Hwt1) as (Hwt & Hvt & _);
    [|split; [done | exact (eq_trans Hvt Hvt1)]].
  intros p [= <-] Hp.
  pose proof (wf_ptr_lt _ _ _ Ht Hp). lia.
Qed.

(** X11.  When the configured flags leave spare capacity, the first
    [append] of [aaptFlags] writes [-z] into their array, in the cell right
    behind them: after the run the slice of the same array that is one
    element longer shows the configured flags followed by [-z], whatever
    that cell held before. *)
Theorem spare_capacity_written ctx a st :
  goslice.wf (heap st) (Aaptflags (appProperties a)) ->
  deps_ok ctx ->
  len (Aaptflags (appProperties a)) < cap (Aaptflags (appProperties a)) ->
  exists a' st',
    GenerateAndroidBuildActions ctx a st = Some (a', st') /\
    let cfg := Aaptflags (appProperties a) in
    goslice.view (heap st') (Slice (ptr cfg) (off cfg) (len cfg + 1) (cap cfg))
    = goslice.view (heap st) cfg ++ ["-z"].
Proof.
  intros Hwf Hok Hspare.
  destruct (GenerateAndroidBuildActions_wp ctx a st Hwf Hok)
    as (a' & st' & Hrun & fl & st1 & c1 & c2 & c3
        & Hflags & _ & _ & Hframe & _).
  exists a', st'. split; [done|]. cbn zeta.
  destruct (aaptFlags_first_append ctx a st Hwf Hok)
    as (fl1 & h1 & r & st1' & rest & Happ & Hrun1 & Hg).
  rewrite Hflags in Hrun1. injection Hrun1 as <- <-. cbn [fst] in Hg.
  pose proof (append_grows _ _ _ _ _ _ Hwf Happ) as (Hwf1 & Hview1 & _).
  assert (Hfl1 : fl1 = Slice (ptr (Aaptflags (appProperties a)))
                             (off (Aaptflags (appProperties a)))
                             (len (Aaptflags (appProperties a)) + 1)
                             (cap (Aaptflags (appProperties a)))).
  { unfold goslice.append in Happ.
    destruct (Nat.leb_spec (len (Aaptflags (appProperties a)) + length ["-z"])
                (cap (Aaptflags (appProperties a)))) as [_|Hgrow];
      [|simpl in Hgrow; lia].
    destruct Hwf as [_ Hptr].
    destruct (ptr (Aaptflags (appProperties a))) as [p|]; [|lia].
    destruct Hptr as (arr & Harr & _). rewrite Harr in Happ.
    by injection Happ as <- _. }
  rewrite <- Hfl1.
  destruct Hg as (_ & _ & _ & _ & Hkeep).
  destruct (Hkeep fl1 Hwf1 (guards_refl fl1)) as (Hw2 & Hv2 & _).
  rewrite (frame_view _ _ _ Hframe Hw2). congruence.
Qed.

(** X12.  A module fresh from the factory: [DepsMutator] gives it the
    [framework-res] dependency, and from any store [aaptFlags] returns, in
    an array of their own and without touching what the store holds, the
    flags computed for the manifest [AndroidManifest.xml], the default
    directories, the platform SDK version and both version defaults. *)
Theorem factory_module_defaults ctx mctx st :
  deps_ok ctx ->
  DepsMutator AndroidAppFactory mctx
  = AddDependency (Module_deps (Module_ AndroidAppFactory) mctx)
                  frameworkResTag ["framework-res"] /\
  exists fl deps hasResources st',
    aaptFlags ctx AndroidAppFactory st = Some ((fl, deps, hasResources), st') /\
    fresh (heap st) fl /\
    frame (heap st) (heap st') /\
    goslice.view (heap st') fl
    = ["-z";
       "-M " +:+ Path_String (PathForModuleSrc ctx "AndroidManifest.xml");
       JoinWithPrefix
         (Paths_Strings (PathsWithOptionalDefaultForModuleSrc ctx [] "assets"))
         "-A ";
       JoinWithPrefix (Paths_Strings (resourceDirs_of ctx AndroidAppFactory)) "-S "]
      ++ map (fun dep => "-I " +:+ Path_String dep) (dep_files (DirectDeps ctx))
      ++ ["--min-sdk-version " +:+ PlatformSdkVersion (AConfig ctx);
          "--target-sdk-version " +:+ PlatformSdkVersion (AConfig ctx);
          "--version-code " +:+ PlatformSdkVersion (AConfig ctx);
          "--version-name " +:+ PlatformVersion (AConfig ctx) +:+ "-"
            +:+ BuildNumber (AConfig ctx)].
Proof.
  intros Hok. split; [reflexivity|].
  assert (Hwf : goslice.wf (heap st) (Aaptflags (appProperties AndroidAppFactory)))
    by apply wf_nil.
  destruct (aaptFlags_wp ctx AndroidAppFactory st Hwf Hok)
    as ([[fl deps] hr] & st' & Hrun & _ & _ & _ & Hgrows).
  cbn [fst snd] in Hgrows.
  exists fl, deps, hr, st'. split; [done|].
  pose proof Hgrows as (_ & Hview & Hlen & Hptr & Hkeep).
  split; [|split].
  - intros p Hp. destruct (Hptr p Hp) as [Hnil|Hnew]; [discriminate | done].
  - split; [done|]. intros t Ht.
    destruct (Hkeep t Ht (guards_nil t)) as (? & ? & _). done.
  - rewrite Hview. reflexivity.
Qed.

(** X13.  [Package_splits] is never read: changing it changes neither the
    result, the store and the actions of [aaptFlags], nor the store and the
    actions of [GenerateAndroidBuildActions], whose resulting module
    differs in that property only. *)
Theorem package_splits_unused ctx a v st :
  aaptFlags ctx (set_Package_splits v a) st = aaptFlags ctx a st /\
  GenerateAndroidBuildActions ctx (set_Package_splits v a) st
  = (fun r => (set_Package_splits v (fst r), snd r))
      <$> GenerateAndroidBuildActions ctx a st.
Proof.
  split; [reflexivity|].
  unfold GenerateAndroidBuildActions.
  unfold mbind, M_bind, fmap, option_fmap, option_map.
  change (aaptFlags ctx (set_Package_splits v a) st) with (aaptFlags ctx a st).
  destruct (aaptFlags ctx a st) as [[[[fl deps] hr] st1]|]; [|reflexivity].
  destruct hr;
    [destruct (Export_package_resources (appProperties a)) eqn:Hexp|].
  all: cbn [appProperties set_Module set_aaptJavaFileList set_Package_splits
            Export_package_resources].
  all: rewrite ?Hexp.
  all: unfold CreateResourceJavaFiles, CreateExportPackage, CreateAppPackage,
         read, emit, mbind, M_bind, mret, M_ret, fmap, option_fmap, option_map.
  all: repeat
         (cbn -[product_flags append certificates_of String.append];
          lazymatch goal with
          | |- context [append goslice.nil ?fs ?s] =>
              destruct (append goslice.nil fs s) as [[? ?]|]
          | |- context [resourceJavaFiles_outputs ?c] =>
              destruct (resourceJavaFiles_outputs c) as [[? ?] ?]
          | |- context [product_flags ?c ?f ?s] =>
              destruct (product_flags c f s) as [[? ?]|]
          | |- _ => fail
          end).
  all: reflexivity.
Qed.

End app_go_further.


(** ** The properties on the sample tree *)

#[local] Existing Instances Sample.runtime Sample.gofilepath Sample.paths Sample.java.

Lemma Sample_wf :
  goslice.wf (heap Sample.st) (Aaptflags (appProperties Sample.app)).
Proof.
  split; simpl; [lia|]. eexists. split; [reflexivity | simpl; lia].
Defined.

Lemma Sample_deps_ok : deps_ok Sample.ctx.
Proof. repeat constructor; by eexists. Defined.

Lemma Sample_bare_deps_ok : deps_ok Sample.ctx_bare.
Proof. repeat constructor; by eexists. Defined.

Lemma explicit_version_flags_win_witness :
  exists fl deps hasResources st' rest,
    aaptFlags Sample.ctx Sample.app Sample.st = Some ((fl, deps, hasResources), st') /\
    goslice.view (heap st') fl
    = goslice.view (heap Sample.st) (Aaptflags (appProperties Sample.app)) ++ rest /\
    tokens_of "--version-code" rest = [] /\
    ~ In (version_default Sample.ctx "--version-code") rest /\
    tokens_of "--version-code" (goslice.view (heap st') fl)
    = tokens_of "--version-code"
        (goslice.view (heap Sample.st) (Aaptflags (appProperties Sample.app))).
Proof.
  apply (explicit_version_flags_win Sample.ctx Sample.app Sample.st "--version-code").
  - exact Sample_wf.
  - exact Sample_deps_ok.
  - by left.
  - reflexivity.
Defined.

Lemma certificate_resolution_witness :
  exists a' st' new,
    GenerateAndroidBuildActions Sample.ctx Sample.app Sample.st = Some (a', st') /\
    actions st' = actions Sample.st ++ new /\
    certificates_used new
    = [["build/target/product/security/platform"; "src/keys/extra.x509.pem"]].
Proof.
  exact (certificate_resolution Sample.ctx Sample.app Sample.st
           Sample_wf Sample_deps_ok).
Defined.

Lemma overlay_precedence_witness :
  resourceDirs_of Sample.ctx Sample.app
  = [PathOf "vendor/overlay/app/res"] ++ [PathOf "app/res"].
Proof.
  exact (proj1 (overlay_precedence Sample.ctx Sample.app Sample.st
                  Sample_wf Sample_deps_ok)).
Defined.

Lemma no_resources_gating_witness :
  exists fl deps st1 a' st' new,
    aaptFlags Sample.ctx_bare Sample.app Sample.st = Some ((fl, deps, false), st1) /\
    In (manifestPath_of Sample.ctx_bare Sample.app) deps /\
    (forall d f,
        In d (assetDirs_of Sample.ctx_bare Sample.app) ->
        In f (Glob Sample.ctx_bare (filepath_Join [Path_String d; "**/*"])
                aaptIgnoreFilenames) ->
        In f deps) /\
    GenerateAndroidBuildActions Sample.ctx_bare Sample.app Sample.st = Some (a', st') /\
    actions st' = actions Sample.st ++ new /\
    Forall (fun b => is_resource_action b = false) new /\
    aaptJavaFileList a' = aaptJavaFileList Sample.app /\
    exportPackage a' = exportPackage Sample.app.
Proof.
  apply (no_resources_gating Sample.ctx_bare Sample.app Sample.st).
  - exact Sample_wf.
  - exact Sample_bare_deps_ok.
  - intros d Hd. vm_compute in Hd.
    destruct Hd as [<- | [<- | []]]; reflexivity.
Defined.

Lemma dir_flags_joined_witness :
  exists fl deps hasResources st' post,
    aaptFlags Sample.ctx Sample.app Sample.st = Some ((fl, deps, hasResources), st') /\
    goslice.view (heap st') fl
    = ["--version-code 7"; "--version-name 1.0"; "-z"]
      ++ ["-M app/AndroidManifest.xml";
          "-A app/assets -A app/fonts";
          "-S vendor/overlay/app/res -S app/res"]
      ++ post /\
    Forall (fun f => strings.HasPrefix f "-A " = false /\
                     strings.HasPrefix f "-S " = false) post.
Proof.
  exact (dir_flags_joined Sample.ctx Sample.app Sample.st Sample_wf Sample_deps_ok).
Defined.

(** C5, as stated, fails on the sample tree: with the asset directories
    [app/assets] and [app/fonts] the flags have no element [-A app/assets],
    so they do not hold one token per directory behind [-M]. *)
Lemma dir_flags_per_directory_counterexample :
  exists fl deps hasResources st',
    aaptFlags Sample.ctx Sample.app Sample.st = Some ((fl, deps, hasResources), st') /\
    ~ exists pre post,
        goslice.view (heap st') fl
        = pre
          ++ ["-M " +:+ Path_String (manifestPath_of Sample.ctx Sample.app)]
          ++ spec_dir_tokens (assetDirs_of Sample.ctx Sample.app)
                             (resourceDirs_of Sample.ctx Sample.app)
          ++ post.
Proof.
  eexists _, _, _, _. split; [vm_compute; reflexivity|].
  intros (pre & post & Heq).
  assert (Hin : In "-A app/assets"
                   (pre
                    ++ ["-M " +:+ Path_String (manifestPath_of Sample.ctx Sample.app)]
                    ++ spec_dir_tokens (assetDirs_of Sample.ctx Sample.app)
                                       (resourceDirs_of Sample.ctx Sample.app)
                    ++ post)).
  { apply in_or_app. right. apply in_or_app. right. apply in_or_app. left.
    vm_compute. by left. }
  rewrite <- Heq in Hin. vm_compute in Hin.
  repeat (destruct Hin as [Hin | Hin]; [discriminate Hin|]). exact Hin.
Qed.

Lemma product_flag_per_invocation_witness :
  exists fl deps hasResources st1,
    aaptFlags Sample.ctx Sample.app Sample.st = Some ((fl, deps, hasResources), st1) /\
    forall export, exists a' st' new,
      GenerateAndroidBuildActions Sample.ctx
        (set_Export_package_resources export Sample.app) Sample.st
      = Some (a', st') /\
      actions st' = actions Sample.st ++ new /\
      appPackage_args new = [spec_with_product Sample.ctx (goslice.view (heap st1) fl)] /\
      exportPackage_args new
      = (if hasResources && export
         then [spec_with_product Sample.ctx (goslice.view (heap st1) fl)]
         else []) /\
      ForallOrdPairs apart (flag_slices new).
Proof.
  exact (product_flag_per_invocation Sample.ctx Sample.app Sample.st
           Sample_wf Sample_deps_ok).
Defined.

Lemma flag_copies_isolated_witness :
  exists fl deps hasResources st1 a' st' new,
    aaptFlags Sample.ctx Sample.app Sample.st = Some ((fl, deps, hasResources), st1) /\
    GenerateAndroidBuildActions Sample.ctx Sample.app Sample.st = Some (a', st') /\
    actions st' = actions Sample.st ++ new /\
    Aaptflags (appProperties a') = Aaptflags (appProperties Sample.app) /\
    goslice.view (heap st') (Aaptflags (appProperties Sample.app))
    = ["--version-code 7"; "--version-name 1.0"] /\
    goslice.view (heap st') fl = goslice.view (heap st1) fl /\
    Forall (flags_intact (heap st')) new /\
    forall c xs c' h'',
      In c (flag_slices new) ->
      goslice.append growslice_slack c xs (heap st') = (c', h'') ->
      goslice.view h'' (Aaptflags (appProperties Sample.app))
      = ["--version-code 7"; "--version-name 1.0"] /\
      goslice.view h'' fl = goslice.view (heap st1) fl /\
      Forall (flags_intact h'') new.
Proof.
  exact (flag_copies_isolated Sample.ctx Sample.app Sample.st
           Sample_wf Sample_deps_ok).
Defined.

Lemma sdk_version_flags_witness :
  exists fl deps hasResources st' v,
    aaptFlags Sample.ctx Sample.app Sample.st = Some ((fl, deps, hasResources), st') /\
    (Sdk_version (deviceProperties (Module_ Sample.app)) <> "" ->
     v = Sdk_version (deviceProperties (Module_ Sample.app))) /\
    (Sdk_version (deviceProperties (Module_ Sample.app)) = "" -> v = "26") /\
    In ("--min-sdk-version " +:+ v) (goslice.view (heap st') fl) /\
    In ("--target-sdk-version " +:+ v) (goslice.view (heap st') fl).
Proof.
  exact (sdk_version_flags Sample.ctx Sample.app Sample.st Sample_wf Sample_deps_ok).
Defined.

Lemma manifest_always_present_witness :
  exists fl deps hasResources st' manifestPath,
    aaptFlags Sample.ctx Sample.app Sample.st = Some ((fl, deps, hasResources), st') /\
    manifestPath = PathOf "app/AndroidManifest.xml" /\
    In manifestPath deps /\
    In ("-M " +:+ Path_String manifestPath) (goslice.view (heap st') fl).
Proof.
  exact (manifest_always_present Sample.ctx Sample.app Sample.st
           Sample_wf Sample_deps_ok).
Defined.

(** ** The further properties on the sample trees *)

Lemma Chain_deps_ok : deps_ok Chain.ctx.
Proof. repeat constructor; by eexists. Defined.

Lemma visitor_panic_iff_witness :
  (aaptFlags Sample.ctx Sample.app Sample.st = None
   <-> Exists visitor_panics (DirectDeps Sample.ctx)) /\
  (GenerateAndroidBuildActions Sample.ctx Sample.app Sample.st = None
   <-> Exists visitor_panics (DirectDeps Sample.ctx)).
Proof.
  exact (visitor_panic_iff Sample.ctx Sample.app Sample.st Sample_wf).
Defined.

Lemma aaptFlags_layout_witness :
  exists fl deps hasResources st',
    aaptFlags Sample.ctx Sample.app Sample.st = Some ((fl, deps, hasResources), st') /\
    actions st' = actions Sample.st /\
    goslice.view (heap st') fl
    = ["--version-code 7"; "--version-name 1.0"]
      ++ ["-z"; "-M app/AndroidManifest.xml"; "-A app/assets -A app/fonts";
          "-S vendor/overlay/app/res -S app/res"]
      ++ ["-I prebuilts/sdk/21/android.jar";
          "-I out/framework-res/package-export.apk"]
      ++ ["--min-sdk-version 26"; "--target-sdk-version 26"]
      ++ [] ++ [].
Proof.
  exact (aaptFlags_layout Sample.ctx Sample.app Sample.st Sample_wf Sample_deps_ok).
Defined.

Lemma aaptDeps_layout_witness :
  exists fl deps hasResources st',
    aaptFlags Sample.ctx Sample.app Sample.st = Some ((fl, deps, hasResources), st') /\
    deps
    = [PathOf "app/res/values/strings.xml"; PathOf "app/assets/font.ttf"]
      ++ [PathOf "app/AndroidManifest.xml"]
      ++ [PathOf "prebuilts/sdk/21/android.jar";
          PathOf "out/framework-res/package-export.apk"].
Proof.
  exact (aaptDeps_layout Sample.ctx Sample.app Sample.st Sample_wf Sample_deps_ok).
Defined.

Lemma hasResources_iff_witness :
  exists fl deps hasResources st',
    aaptFlags Sample.ctx Sample.app Sample.st = Some ((fl, deps, hasResources), st') /\
    (hasResources = true <->
     exists d, In d (resourceDirs_of Sample.ctx Sample.app) /\
               Glob Sample.ctx (filepath_Join [Path_String d; "**/*"])
                 aaptIgnoreFilenames
               <> []).
Proof.
  exact (hasResources_iff Sample.ctx Sample.app Sample.st Sample_wf Sample_deps_ok).
Defined.

Lemma product_iff_not_configured_witness :
  exists fl deps hasResources st1 a' st' new,
    aaptFlags Sample.ctx Sample.app Sample.st = Some ((fl, deps, hasResources), st1) /\
    GenerateAndroidBuildActions Sample.ctx Sample.app Sample.st = Some (a', st') /\
    actions st' = actions Sample.st ++ new /\
    appPackage_args new = [goslice.view (heap st1) fl ++ ["--product nosdcard"]].
Proof.
  exact (product_iff_not_configured Sample.ctx Sample.app Sample.st
           Sample_wf Sample_deps_ok).
Defined.

Lemma resource_stage_witness :
  exists fl deps st1 a' st' c1 c2 args package,
    aaptFlags Sample.ctx Sample.app Sample.st = Some ((fl, deps, true), st1) /\
    GenerateAndroidBuildActions Sample.ctx Sample.app Sample.st = Some (a', st') /\
    actions st'
    = actions Sample.st
      ++ [ResourceJavaFiles c1 (goslice.view (heap st1) fl) deps]
      ++ [ExportPackage c2 args deps;
          CheckbuildFile (PathOf "out/package-export.apk")]
      ++ [CheckbuildFile (PathOf "out/public_resources.xml");
          CheckbuildFile (PathOf "out/proguard.options");
          CheckbuildFile (PathOf "out/R.java.list")]
      ++ package /\
    forallb (fun b => negb (is_resource_action b)) package = true.
Proof.
  refine (resource_stage Sample.ctx Sample.app Sample.st
            Sample_wf Sample_deps_ok _).
  reflexivity.
Defined.

Lemma package_stage_witness :
  exists a' st' pre m_in c args,
    GenerateAndroidBuildActions Sample.ctx Sample.app Sample.st = Some (a', st') /\
    actions st'
    = actions Sample.st ++ pre
      ++ [Compile (Module_compile Sample.ctx m_in);
          AppPackage c args (outputFile (Module_compile Sample.ctx m_in))
                     (certificates_of Sample.ctx Sample.app);
          InstallFileName (PathOf "out/system/app") "Calendar.apk"
                          (PathOf "out/app.apk")] /\
    forallb is_resource_action pre = true /\
    Manifest (properties m_in) = None /\
    No_standard_libraries (properties m_in) = false /\
    deviceProperties m_in = deviceProperties (Module_ Sample.app) /\
    outputFile m_in = None /\
    ExtraSrcLists m_in = [] ++ [PathOf "out/R.java.list"] /\
    Module_ a' = set_outputFile (Some (PathOf "out/app.apk"))
                                (Module_compile Sample.ctx m_in).
Proof.
  exact (package_stage Sample.ctx Sample.app Sample.st Sample_wf Sample_deps_ok).
Defined.

Lemma app_fields_after_run_witness :
  exists a' st',
    GenerateAndroidBuildActions Sample.ctx Sample.app Sample.st = Some (a', st') /\
    appProperties a' = appProperties Sample.app /\
    aaptJavaFileList a' = Some (PathOf "out/R.java.list") /\
    exportPackage a' = Some (PathOf "out/package-export.apk").
Proof.
  exact (app_fields_after_run Sample.ctx Sample.app Sample.st
           Sample_wf Sample_deps_ok).
Defined.

Lemma framework_res_export_chain_witness :
  exists fl deps hasResources st2',
    aaptFlags Chain.ctx (Sample.plain_app "") (State [] [])
    = Some ((fl, deps, hasResources), st2') /\
    In "-I out/package-export.apk" (goslice.view (heap st2') fl) /\
    In (PathOf "out/package-export.apk") deps.
Proof.
  refine (framework_res_export_chain Sample.ctx Sample.app Sample.st Chain.built
            Chain.platform Chain.ctx (Sample.plain_app "") (State [] [])
            Sample_wf _ _ _ _ _ _ _ _ Chain_deps_ok).
  - vm_compute. reflexivity.
  - reflexivity.
  - reflexivity.
  - reflexivity.
  - reflexivity.
  - reflexivity.
  - simpl. by left.
  - split; simpl; [lia | reflexivity].
Defined.

Lemma full_capacity_store_kept_witness :
  exists a' st',
    GenerateAndroidBuildActions Sample.ctx (Sample.plain_app "") Sample.st
    = Some (a', st') /\
    frame (heap Sample.st) (heap st').
Proof.
  apply (full_capacity_store_kept Sample.ctx (Sample.plain_app "") Sample.st).
  - split; simpl; [lia | reflexivity].
  - exact Sample_deps_ok.
  - reflexivity.
Defined.

Lemma spare_capacity_written_witness :
  exists a' st',
    GenerateAndroidBuildActions Sample.ctx Sample.app Sample.st = Some (a', st') /\
    goslice.view (heap st') (Slice (Some 0) 0 3 4)
    = ["--version-code 7"; "--version-name 1.0"] ++ ["-z"].
Proof.
  apply (spare_capacity_written Sample.ctx Sample.app Sample.st).
  - exact Sample_wf.
  - exact Sample_deps_ok.
  - simpl. lia.
Defined.

Lemma factory_module_defaults_witness :
  DepsMutator AndroidAppFactory {| added := [] |}
  = {| added := [({| tag_name := "framework-res" |}, "framework-res")] |} /\
  exists fl deps hasResources st',
    aaptFlags Sample.ctx AndroidAppFactory Sample.st
    = Some ((fl, deps, hasResources), st') /\
    fresh (heap Sample.st) fl /\
    frame (heap Sample.st) (heap st') /\
    goslice.view (heap st') fl
    = ["-z"; "-M app/AndroidManifest.xml"; "-A app/assets";
       "-S vendor/overlay/app/res -S app/res"]
      ++ ["-I prebuilts/sdk/21/android.jar";
          "-I out/framework-res/package-export.apk"]
      ++ ["--min-sdk-version 26"; "--target-sdk-version 26";
          "--version-code 26"; "--version-name 8.0.0-eng.4242"].
Proof.
  exact (factory_module_defaults Sample.ctx {| added := [] |} Sample.st
           Sample_deps_ok).
Defined.

(** ** Evaluations on the sample tree *)

Example Split_path : filepath.Split "keys/foo.pk8" = ("keys/", "foo.pk8").
Proof. reflexivity. Qed.

Example Split_name : filepath.Split "foo" = ("", "foo").
Proof. reflexivity. Qed.

Example Split_trailing_separator : filepath.Split "/a/b/" = ("/a/b/", "").
Proof. reflexivity. Qed.

Example JoinWithPrefix_none : JoinWithPrefix [] "-A " = "".
Proof. reflexivity. Qed.

Example JoinWithPrefix_two : JoinWithPrefix ["res"; "res2"] "-S " = "-S res -S res2".
Proof. reflexivity. Qed.

(** The three shapes of a certificate spec. *)
Example certificate_default :
  certificates_of Sample.ctx (Sample.plain_app "")
  = ["build/target/product/security/testkey"].
Proof. reflexivity. Qed.

Example certificate_name :
  certificates_of Sample.ctx (Sample.plain_app "foo")
  = ["build/target/product/security/foo"].
Proof. reflexivity. Qed.

Example certificate_path :
  certificates_of Sample.ctx (Sample.plain_app "keys/foo.pk8")
  = ["src/keys/foo.pk8"].
Proof. reflexivity. Qed.

(** The flags of the sample application.  The first two appends find room
    in the array of the configured flags and write behind them; the third
    one moves the flags to an array of their own. *)
Example sample_flags :
  (fun r => (fst (fst (fst r)), goslice.view (heap (snd r)) (fst (fst (fst r)))))
    <$> aaptFlags Sample.ctx Sample.app Sample.st
  = Some (Slice (Some 2) 0 10 19,
          ["--version-code 7"; "--version-name 1.0"; "-z";
           "-M app/AndroidManifest.xml"; "-A app/assets -A app/fonts";
           "-S vendor/overlay/app/res -S app/res";
           "-I prebuilts/sdk/21/android.jar";
           "-I out/framework-res/package-export.apk";
           "--min-sdk-version 26"; "--target-sdk-version 26"]).
Proof. vm_compute. reflexivity. Qed.

Example sample_configured_array :
  (fun r => (heap (snd r) !! 0,
             goslice.view (heap (snd r)) (Aaptflags (appProperties Sample.app))))
    <$> aaptFlags Sample.ctx Sample.app Sample.st
  = Some (Some ["--version-code 7"; "--version-name 1.0"; "-z";
                "-M app/AndroidManifest.xml"],
          ["--version-code 7"; "--version-name 1.0"]).
Proof. vm_compute. reflexivity. Qed.

(** Without configured flags both version defaults are appended. *)
Example plain_flags :
  (fun r => goslice.view (heap (snd r)) (fst (fst (fst r))))
    <$> aaptFlags Sample.ctx_bare (Sample.plain_app "") (State [] [])
  = Some ["-z"; "-M app/AndroidManifest.xml"; "-A app/assets";
          "-S vendor/overlay/app/res -S app/res";
          "-I prebuilts/sdk/21/android.jar";
          "-I out/framework-res/package-export.apk";
          "--min-sdk-version 26"; "--target-sdk-version 26";
          "--version-code 26"; "--version-name 8.0.0-eng.4242"].
Proof. vm_compute. reflexivity. Qed.

(** A dependency named [framework-res] that is no application makes the
    visitor panic. *)
Example framework_res_panic :
  aaptFlags
    {| AConfig := Sample.config;
       Glob := fun _ _ => [];
       DirectDeps := [ {| OtherModuleName := "framework-res";
                          as_sdkDependency := None;
                          is_Dependency := true;
                          as_AndroidApp := None |} ];
       ModuleName := "Calendar" |}
    Sample.app Sample.st
  = None.
Proof. vm_compute. reflexivity. Qed.
